(** * CryptoCoven transfer mapping: a shallow embedding of [handleTransfer]

    The development follows [src/mappings/coven.ts].  The handler reads and
    writes three tables of the entity store (Account, MarketplaceInteraction,
    CovenTransfer) and appends informational lines to the diagnostic log.
    Entities are looked up by string id; [load] hands out a copy of the stored
    row and [save] writes the copy back under its id. *)

From Stdlib Require Import ZArith Ascii String List HexadecimalString.
From stdpp Require Import base option gmap strings list fin_maps.

Local Open Scope Z_scope.
Local Open Scope string_scope.

(** ** Values *)

(** An [Address] and a transaction hash are represented by their lowercase
    hexadecimal rendering, which is what [toHex()] / [toHexString()] return
    and what the store uses as account id; [equals] is equality of the bytes,
    hence of the renderings. *)
Abbreviation Address := string (only parsing).
Abbreviation Bytes := string (only parsing).
Abbreviation BigInt := Z (only parsing).
Abbreviation ID := string (only parsing).

Definition Address_equals (a b : Address) : bool := String.eqb a b.
Definition Address_toHex (a : Address) : ID := a.
Definition Bytes_toHex (b : Bytes) : string := b.

(** Modelled from the spec: [BIGINT_ONE] and [BIGINT_ZERO] are declared in
    utils/consts, which is not part of the sources; the spec reads them as
    the integers one ("increment by 1", "initialize to 1") and zero. *)
Definition BIGINT_ONE : BigInt := 1.
Definition BIGINT_ZERO : BigInt := 0.

(** The [Marketplace] enum of the schema (and of utils/helper). *)
Inductive Marketplace :=
  | OpenSeaV1 | OpenSeaV2 | SeaPort | LooksRare | OxProtocol | OxProtocolV2
  | Blur | Rarible | X2Y2 | NFTX | GenieSwap | CryptoCoven | Unknown.

#[global] Instance Marketplace_eq_dec : EqDecision Marketplace.
Proof. solve_decision. Defined.

(** [getMarketplaceName]: the if/else chain over the enum. *)
Definition getMarketplaceName (marketplace : Marketplace) : string :=
  if decide (marketplace = OpenSeaV1) then "OpenSeaV1"
  else if decide (marketplace = OpenSeaV2) then "OpenSeaV2"
  else if decide (marketplace = SeaPort) then "SeaPort"
  else if decide (marketplace = LooksRare) then "LooksRare"
  else if decide (marketplace = OxProtocol) then "OxProtocol"
  else if decide (marketplace = OxProtocolV2) then "OxProtocolV2"
  else if decide (marketplace = Blur) then "Blur"
  else if decide (marketplace = Rarible) then "Rarible"
  else if decide (marketplace = X2Y2) then "X2Y2"
  else if decide (marketplace = NFTX) then "NFTX"
  else if decide (marketplace = GenieSwap) then "GenieSwap"
  else if decide (marketplace = CryptoCoven) then "CryptoCoven"
  else "Unknown".

(** ** Entities

    A row carries the fields of the schema except [id]: the id of an entity is
    the key it is loaded from and saved under, so [fromAccount.id] is the key
    [fromAccount] was obtained with.  The counters the handler tests for
    null before use are optional ([None] is "unset"). *)
Record Account := mkAccount {
  txHash : option Bytes;
  sendCount : option BigInt;
  receiveCount : option BigInt;
  totalSpent : option BigInt;
  nftCount : option BigInt;
  uniqueMarketplacesCount : option BigInt
}.

Record MarketplaceInteraction := mkInteraction {
  account : ID;
  marketplace : string;
  transactionCount : BigInt
}.

Record CovenTransfer := mkTransfer {
  transfer_from : ID;
  transfer_to : ID;
  transfer_tokenId : BigInt;
  transfer_logIndex : BigInt;
  transfer_txHash : Bytes;
  transfer_value : BigInt;
  transfer_marketplace : string
}.

#[global] Instance Account_eq_dec : EqDecision Account.
Proof. solve_decision. Defined.
#[global] Instance MarketplaceInteraction_eq_dec : EqDecision MarketplaceInteraction.
Proof. solve_decision. Defined.
#[global] Instance CovenTransfer_eq_dec : EqDecision CovenTransfer.
Proof. solve_decision. Defined.

(** Field assignments [entity.field = v]. *)
Definition set_txHash (v : option Bytes) (a : Account) : Account :=
  mkAccount v (sendCount a) (receiveCount a) (totalSpent a) (nftCount a)
            (uniqueMarketplacesCount a).
Definition set_sendCount (v : option BigInt) (a : Account) : Account :=
  mkAccount (txHash a) v (receiveCount a) (totalSpent a) (nftCount a)
            (uniqueMarketplacesCount a).
Definition set_receiveCount (v : option BigInt) (a : Account) : Account :=
  mkAccount (txHash a) (sendCount a) v (totalSpent a) (nftCount a)
            (uniqueMarketplacesCount a).
Definition set_totalSpent (v : option BigInt) (a : Account) : Account :=
  mkAccount (txHash a) (sendCount a) (receiveCount a) v (nftCount a)
            (uniqueMarketplacesCount a).
Definition set_nftCount (v : option BigInt) (a : Account) : Account :=
  mkAccount (txHash a) (sendCount a) (receiveCount a) (totalSpent a) v
            (uniqueMarketplacesCount a).
Definition set_uniqueMarketplacesCount (v : option BigInt) (a : Account) : Account :=
  mkAccount (txHash a) (sendCount a) (receiveCount a) (totalSpent a)
            (nftCount a) v.
Definition set_transactionCount (v : BigInt) (i : MarketplaceInteraction)
  : MarketplaceInteraction :=
  mkInteraction (account i) (marketplace i) v.

(** ** The event *)
Record Event := mkEvent {
  params_from : Address;
  params_to : Address;
  params_tokenId : BigInt;
  transaction_hash : Bytes;
  transaction_value : BigInt;
  transaction_to : option Address;
  transaction_from : option Address;
  logIndex : BigInt
}.

(** ** What the mapping imports

    The address table of utils/consts, and the pieces of the runtime and of
    utils/helper whose declarations are not in the sources, are collected in
    one immutable configuration value; every result below holds for all
    configurations unless it names one.  The constants [X2Y2] and [NFTX] of
    the source are [X2Y2_ADDRESS] and [NFTX_ADDRESS] here, the plain names
    being the tags of the enum. *)
Record Env := mkEnv {
  ZERO_ADDRESS : Address;
  OPENSEAV1 : Address;
  OPENSEAV2 : Address;
  SEAPORT : Address;
  LOOKS_RARE : Address;
  OXPROTOCOL : Address;
  OXPROTOCOLV2 : Address;
  BLUR : Address;
  RARIBLE : Address;
  X2Y2_ADDRESS : Address;
  NFTX_ADDRESS : Address;
  GENIE_SWAP : Address;
  CRYPTO_COVEN : Address;
  (** [marketplace.toString()] on a value of the enum of utils/helper *)
  Marketplace_toString : Marketplace -> string;
  (** [logIndex.toHex()] *)
  BigInt_toHex : BigInt -> string;
  (** [sender === ZERO_ADDRESS]: the strict comparison of two references *)
  Address_strictEquals : Address -> Address -> bool;
  (** the row [getOrCreateAccount] hands out for an id the store lacks *)
  newAccount : ID -> Account
}.

(** ** Store, log and the handler monad *)
Definition LogEntry : Type := string * list string.

Record State := mkState {
  accounts : gmap string Account;
  interactions : gmap string MarketplaceInteraction;
  transfers : gmap string CovenTransfer;
  logs : list LogEntry
}.

Definition emptyState : State := mkState ∅ ∅ ∅ [].

(** A handler step reads and writes the state and may abort (a method call
    on an unset field); an aborted handler leaves no state behind. *)
Definition M (A : Type) : Type := State -> option (A * State).

Definition ret {A} (x : A) : M A := fun st => Some (x, st).
Definition bind {A B} (c : M A) (k : A -> M B) : M B :=
  fun st => match c st with
            | Some (x, st') => k x st'
            | None => None
            end.
Definition abort {A} : M A := fun _ => None.

Notation "x <- c ;; k" := (bind c (fun x => k))
  (at level 100, c at next level, right associativity).
Notation "c ;; k" := (bind c (fun _ => k))
  (at level 100, right associativity).

(** [x.plus(...)] on a field that may be unset. *)
Definition deref {A} (o : option A) : M A :=
  match o with Some x => ret x | None => abort end.

Definition Account_load (id : ID) : M (option Account) :=
  fun st => Some (accounts st !! id, st).
Definition Account_save (id : ID) (a : Account) : M unit :=
  fun st => Some (tt, mkState (<[id := a]> (accounts st)) (interactions st)
                              (transfers st) (logs st)).
Definition MarketplaceInteraction_load (id : ID) : M (option MarketplaceInteraction) :=
  fun st => Some (interactions st !! id, st).
Definition MarketplaceInteraction_save (id : ID) (i : MarketplaceInteraction) : M unit :=
  fun st => Some (tt, mkState (accounts st) (<[id := i]> (interactions st))
                              (transfers st) (logs st)).
Definition CovenTransfer_save (id : ID) (t : CovenTransfer) : M unit :=
  fun st => Some (tt, mkState (accounts st) (interactions st)
                              (<[id := t]> (transfers st)) (logs st)).
Definition log_info (fmt : string) (args : list string) : M unit :=
  fun st => Some (tt, mkState (accounts st) (interactions st) (transfers st)
                              (logs st ++ [(fmt, args)])).

(** Modelled from the spec: [getOrCreateAccount] is defined in utils/helper,
    which is not part of the sources.  The spec has it "resolve or create"
    the Account of an address: the row stored under the address's id when
    there is one, a newly created row otherwise.  The handler saves both
    accounts itself, so whether creation also saves is not observable after
    the handler. *)
Definition getOrCreateAccount (env : Env) (address : Address) : M Account :=
  o <- Account_load (Address_toHex address) ;;
  match o with
  | Some a => ret a
  | None => ret (newAccount env (Address_toHex address))
  end.

(** ** The handler, [src/mappings/coven.ts] *)

(** [x ? f(x) : d] on a field that may be unset: an object reference is
    truthy exactly when it is not null, whatever number it holds.  The second
    branch is the source's text for a null counter; a store whose counters
    are all set ([storeInitialised]) never takes it. *)
Definition ifSet {A} (o : option A) (f : A -> A) (d : A) : option A :=
  match o with
  | Some x => Some (f x)
  | None => Some d
  end.

(** The guard of lines 78-81 and 164-167: neither endpoint of the NFT transfer
    is the zero address. *)
Definition notMintOrBurn (env : Env) (event : Event) : bool :=
  negb (Address_equals (params_from event) (ZERO_ADDRESS env)) &&
  negb (Address_equals (params_to event) (ZERO_ADDRESS env)).

(** Lines 117-148: the marketplace of a transfer, from the two addresses of
    the enclosing transaction. *)
Definition classifyMarketplace (env : Env) (sender receiver : option Address)
  : Marketplace :=
  match sender, receiver with
  | Some sender, Some receiver =>
    if Address_equals sender (OPENSEAV1 env) || Address_equals receiver (OPENSEAV1 env)
    then OpenSeaV1
    else if Address_equals sender (OPENSEAV2 env) || Address_equals receiver (OPENSEAV2 env)
    then OpenSeaV2
    else if Address_equals sender (SEAPORT env) || Address_equals receiver (SEAPORT env)
    then SeaPort
    else if Address_equals sender (LOOKS_RARE env) || Address_equals receiver (LOOKS_RARE env)
    then LooksRare
    else if Address_equals sender (OXPROTOCOL env) || Address_equals receiver (OXPROTOCOL env)
    then OxProtocol
    else if Address_equals sender (OXPROTOCOLV2 env) || Address_equals receiver (OXPROTOCOLV2 env)
    then OxProtocolV2
    else if Address_equals sender (BLUR env) || Address_equals receiver (BLUR env)
    then Blur
    else if Address_equals sender (RARIBLE env) || Address_equals receiver (RARIBLE env)
    then Rarible
    else if Address_equals sender (X2Y2_ADDRESS env) || Address_equals receiver (X2Y2_ADDRESS env)
    then X2Y2
    else if Address_equals sender (NFTX_ADDRESS env) || Address_equals receiver (NFTX_ADDRESS env)
    then NFTX
    else if Address_equals sender (GENIE_SWAP env) || Address_equals receiver (GENIE_SWAP env)
    then GenieSwap
    else if Address_equals sender (CRYPTO_COVEN env) || Address_equals receiver (CRYPTO_COVEN env)
    then CryptoCoven
    else Unknown
  | _, _ => Unknown
  end.

Definition isNull {A} (o : option A) : bool :=
  match o with Some _ => false | None => true end.

(** Lines 150-157: the diagnostics that follow the classification. *)
Definition logMarketplace (env : Env) (event : Event) (marketplace : Marketplace)
    (sender receiver : option Address) : M unit :=
  if decide (marketplace = Unknown)
  then log_info "Unknown MarketPlace: {}" [Bytes_toHex (transaction_hash event)]
  else if match sender with
          | Some s => Address_strictEquals env s (ZERO_ADDRESS env)
          | None => false
          end
  then log_info "NFT Burn detected: {}" [Bytes_toHex (transaction_hash event)]
  else if isNull sender || isNull receiver
  then log_info "Unusual Activity: {}" [Bytes_toHex (transaction_hash event)]
  else ret tt.

(** Lines 168-191 and, with [to] for [from], lines 193-216: record that the
    account took part in a transfer on the marketplace.  The account is the
    handler's in-memory copy; it comes back with its counter of distinct
    marketplaces raised when the interaction row is new. *)
Definition trackInteraction (env : Env) (accountId : ID) (acct : Account)
    (tag : Marketplace) : M Account :=
  let interactionId := accountId +:+ "-" +:+ Marketplace_toString env tag in
  interaction <- MarketplaceInteraction_load interactionId ;;
  match interaction with
  | None =>
    count <- deref (uniqueMarketplacesCount acct) ;;
    MarketplaceInteraction_save interactionId
      (mkInteraction accountId (getMarketplaceName tag) BIGINT_ONE) ;;
    ret (set_uniqueMarketplacesCount (Some (count + BIGINT_ONE)) acct)
  | Some interaction =>
    MarketplaceInteraction_save interactionId
      (set_transactionCount (transactionCount interaction + BIGINT_ONE) interaction) ;;
    ret acct
  end.

Definition handleTransfer (env : Env) (event : Event) : M unit :=
  fromAccount <- getOrCreateAccount env (params_from event) ;;
  toAccount <- getOrCreateAccount env (params_to event) ;;
  let fromId := Address_toHex (params_from event) in
  let toId := Address_toHex (params_to event) in
  let toAccount := set_txHash (Some (transaction_hash event)) toAccount in
  let fromAccount := set_txHash (Some (transaction_hash event)) fromAccount in
  let fromAccount :=
    set_sendCount
      (ifSet (sendCount fromAccount) (fun n => n + BIGINT_ONE) BIGINT_ONE)
      fromAccount in
  let toAccount :=
    set_receiveCount
      (ifSet (receiveCount toAccount) (fun n => n + BIGINT_ONE) BIGINT_ONE)
      toAccount in
  let toAccount :=
    set_totalSpent
      (ifSet (totalSpent toAccount) (fun n => n + transaction_value event)
             (transaction_value event))
      toAccount in
  let fromAccount :=
    if notMintOrBurn env event
    then set_nftCount
           (ifSet (nftCount fromAccount) (fun n => n - BIGINT_ONE) BIGINT_ZERO)
           fromAccount
    else fromAccount in
  let toAccount :=
    if notMintOrBurn env event
    then set_nftCount
           (ifSet (nftCount toAccount) (fun n => n + BIGINT_ONE) BIGINT_ONE)
           toAccount
    else toAccount in
  Account_save fromId fromAccount ;;
  Account_save toId toAccount ;;
  let transferId :=
    Bytes_toHex (transaction_hash event) +:+ "-" +:+
    BigInt_toHex env (logIndex event) in
  let sender := transaction_to event in
  let receiver := transaction_from event in
  let tag := classifyMarketplace env sender receiver in
  logMarketplace env event tag sender receiver ;;
  let transfer :=
    mkTransfer fromId toId (params_tokenId event) (logIndex event)
               (transaction_hash event) (transaction_value event)
               (getMarketplaceName tag) in
  if notMintOrBurn env event
  then
    fromAccount <- trackInteraction env fromId fromAccount tag ;;
    toAccount <- trackInteraction env toId toAccount tag ;;
    Account_save fromId fromAccount ;;
    Account_save toId toAccount ;;
    CovenTransfer_save transferId transfer
  else
    log_info "Skipping marketplace interaction tracking for zero address transfers: {}"
             [Bytes_toHex (transaction_hash event)].

(** Running the handler on a state, and on the events of a block in order. *)
Definition runHandler (env : Env) (event : Event) (st : State) : option State :=
  match handleTransfer env event st with
  | Some (_, st') => Some st'
  | None => None
  end.

Fixpoint runEvents (env : Env) (events : list Event) (st : State) : option State :=
  match events with
  | [] => Some st
  | event :: rest =>
    match runHandler env event st with
    | Some st' => runEvents env rest st'
    | None => None
    end
  end.

(** ** The handler's effect, in closed form *)

(** The key of an interaction row, [accountId + "-" + marketplace.toString()]. *)
Definition interactionKey (env : Env) (accountId : ID) (tag : Marketplace) : ID :=
  accountId +:+ "-" +:+ Marketplace_toString env tag.

(** The id of the Transfer entity of an event, line 101. *)
Definition transferId (env : Env) (event : Event) : ID :=
  transaction_hash event +:+ "-" +:+ BigInt_toHex env (logIndex event).

(** The account [getOrCreateAccount] resolves an id to. *)
Definition resolveAccount (env : Env) (id : ID) (st : State) : Account :=
  default (newAccount env id) (accounts st !! id).

(** The handler's copy of the sender's account when it is first saved
    (line 93), as a function of the copy it loaded. *)
Definition senderCopy (env : Env) (event : Event) (a : Account) : Account :=
  let a := set_txHash (Some (transaction_hash event)) a in
  let a := set_sendCount (ifSet (sendCount a) (fun n => n + BIGINT_ONE) BIGINT_ONE) a in
  if notMintOrBurn env event
  then set_nftCount (ifSet (nftCount a) (fun n => n - BIGINT_ONE) BIGINT_ZERO) a
  else a.

(** The handler's copy of the recipient's account when it is first saved
    (line 94). *)
Definition recipientCopy (env : Env) (event : Event) (a : Account) : Account :=
  let a := set_txHash (Some (transaction_hash event)) a in
  let a := set_receiveCount (ifSet (receiveCount a) (fun n => n + BIGINT_ONE) BIGINT_ONE) a in
  let a := set_totalSpent
             (ifSet (totalSpent a) (fun n => n + transaction_value event)
                    (transaction_value event)) a in
  if notMintOrBurn env event
  then set_nftCount (ifSet (nftCount a) (fun n => n + BIGINT_ONE) BIGINT_ONE) a
  else a.

(** The tag the handler computes for an event. *)
Definition eventTag (env : Env) (event : Event) : Marketplace :=
  classifyMarketplace env (transaction_to event) (transaction_from event).

(** The lines [logMarketplace] appends. *)
Definition marketplaceDiagnostics (env : Env) (event : Event) : list LogEntry :=
  if decide (eventTag env event = Unknown)
  then [("Unknown MarketPlace: {}", [transaction_hash event])]
  else if match transaction_to event with
          | Some s => Address_strictEquals env s (ZERO_ADDRESS env)
          | None => false
          end
  then [("NFT Burn detected: {}", [transaction_hash event])]
  else if isNull (transaction_to event) || isNull (transaction_from event)
  then [("Unusual Activity: {}", [transaction_hash event])]
  else [].

Definition skipDiagnostic (event : Event) : LogEntry :=
  ("Skipping marketplace interaction tracking for zero address transfers: {}",
   [transaction_hash event]).

(** Load-or-create on the interaction table, as the spec words it: a new row
    gets the account, the tag's display string and a count of one; an
    existing row gains one transaction. *)
Definition upsertInteraction (key accountId : ID) (tag : Marketplace)
    (m : gmap string MarketplaceInteraction) : gmap string MarketplaceInteraction :=
  match m !! key with
  | None => <[key := mkInteraction accountId (getMarketplaceName tag) 1]> m
  | Some r => <[key := mkInteraction (account r) (marketplace r) (transactionCount r + 1)]> m
  end.

(** The account copy after its interaction was tracked: the counter of
    distinct marketplaces goes up when the row was missing, and the handler
    aborts when the counter it would add to is unset. *)
Definition countMarketplace (key : ID) (m : gmap string MarketplaceInteraction)
    (a : Account) : option Account :=
  match m !! key with
  | Some _ => Some a
  | None =>
    match uniqueMarketplacesCount a with
    | Some c => Some (set_uniqueMarketplacesCount (Some (c + 1)) a)
    | None => None
    end
  end.

(** The state when the handler returns from a mint or a burn. *)
Definition mintBurnResult (env : Env) (event : Event) (st : State) : State :=
  let fromId := params_from event in
  let toId := params_to event in
  mkState
    (<[toId := recipientCopy env event (resolveAccount env toId st)]>
       (<[fromId := senderCopy env event (resolveAccount env fromId st)]> (accounts st)))
    (interactions st)
    (transfers st)
    (logs st ++ marketplaceDiagnostics env event ++ [skipDiagnostic event]).

(** The state when the handler returns from a transfer between two
    non-zero addresses, given the two account copies after tracking. *)
Definition transferResult (env : Env) (event : Event) (st : State)
    (fromAccount toAccount : Account) : State :=
  let fromId := params_from event in
  let toId := params_to event in
  let tag := eventTag env event in
  mkState
    (<[toId := toAccount]>
       (<[fromId := fromAccount]>
          (<[toId := recipientCopy env event (resolveAccount env toId st)]>
             (<[fromId := senderCopy env event (resolveAccount env fromId st)]>
                (accounts st)))))
    (upsertInteraction (interactionKey env toId tag) toId tag
       (upsertInteraction (interactionKey env fromId tag) fromId tag (interactions st)))
    (<[transferId env event :=
         mkTransfer fromId toId (params_tokenId event) (logIndex event)
                    (transaction_hash event) (transaction_value event)
                    (getMarketplaceName tag)]> (transfers st))
    (logs st ++ marketplaceDiagnostics env event).

(** ** The classifier, in the spec's words *)

(** The table the classifier walks, in the order of the source's tests. *)
Definition knownMarketplaces (env : Env) : list (Marketplace * Address) :=
  [ (OpenSeaV1, OPENSEAV1 env); (OpenSeaV2, OPENSEAV2 env); (SeaPort, SEAPORT env);
    (LooksRare, LOOKS_RARE env); (OxProtocol, OXPROTOCOL env);
    (OxProtocolV2, OXPROTOCOLV2 env); (Blur, BLUR env); (Rarible, RARIBLE env);
    (X2Y2, X2Y2_ADDRESS env); (NFTX, NFTX_ADDRESS env); (GenieSwap, GENIE_SWAP env);
    (CryptoCoven, CRYPTO_COVEN env) ].

(** Walk an ordered list of (tag, knownAddress) pairs, test the known address
    against candidate A or candidate B, return the first tag matched,
    [Unknown] when none is. *)
Fixpoint firstMatch (table : list (Marketplace * Address)) (a b : Address)
  : Marketplace :=
  match table with
  | [] => Unknown
  | (tag, known) :: rest =>
    if bool_decide (known = a) || bool_decide (known = b) then tag
    else firstMatch rest a b
  end.

Definition classifySpec (env : Env) (candA candB : option Address) : Marketplace :=
  match candA, candB with
  | Some a, Some b => firstMatch (knownMarketplaces env) a b
  | _, _ => Unknown
  end.

(** The closed set of tags. *)
Definition allTags : list Marketplace :=
  [OpenSeaV1; OpenSeaV2; SeaPort; LooksRare; OxProtocol; OxProtocolV2; Blur;
   Rarible; X2Y2; NFTX; GenieSwap; CryptoCoven; Unknown].

(** ** The invariant of the data model *)

(** The number of rows of an interaction table whose account reference is
    the account. *)
Definition ownedIn (accountId : ID) (m : gmap string MarketplaceInteraction) : nat :=
  size (filter (fun kv : string * MarketplaceInteraction => account kv.2 = accountId) m).

Definition ownedInteractions (accountId : ID) (st : State) : nat :=
  ownedIn accountId (interactions st).

(** Every stored account's counter of distinct marketplaces equals the number
    of interaction rows that refer to the account. *)
Definition countsAgree (st : State) : Prop :=
  forall id a, accounts st !! id = Some a ->
               uniqueMarketplacesCount a = Some (Z.of_nat (ownedInteractions id st)).

(** The same for whatever [getOrCreateAccount] resolves an id to, stored or
    not. *)
Definition countsResolve (env : Env) (st : State) : Prop :=
  forall id, uniqueMarketplacesCount (resolveAccount env id st)
             = Some (Z.of_nat (ownedInteractions id st)).

(** ** A configuration and a history to run examples on *)

(** Modelled from the spec: [BigInt.toHex] belongs to the runtime, which is
    not part of the sources; the transfer id is "txHash-logIndex" with the
    index in hexadecimal. *)
Definition toHexDigits (n : BigInt) : string :=
  "0x" +:+ HexadecimalString.NilZero.string_of_uint (N.to_hex_uint (Z.to_N n)).

(** Modelled from the spec: the address table of utils/consts, the enum of
    utils/helper and [getOrCreateAccount] are not part of the sources.  The
    examples run on a table of shortened addresses: 0x00 is the zero address,
    0x01 the OpenSeaV1 contract, 0x0c the CryptoCoven contract.  Following the
    spec, the enum renders as its tag's name in the interaction key
    ("accountId-OpenSeaV1"); a created account has its counter of distinct
    marketplaces at zero (it "increments by 1" on the first interaction) and
    its other counters unset ("initialize if unset"); the strict comparison
    of the transaction's address object with the constant finds two distinct
    objects.  This is the spec's reading of the two missing declarations;
    [ordinalEnv] below is the configuration of the compiled mapping. *)
Definition exampleEnv : Env :=
  mkEnv "0x00" "0x01" "0x02" "0x03" "0x04" "0x05" "0x06" "0x07" "0x08" "0x09"
        "0x0a" "0x0b" "0x0c"
        getMarketplaceName
        toHexDigits
        (fun _ _ => false)
        (fun _ => mkAccount None None None None None (Some 0)).

(** Token 42 is minted to 0xaa by a call to the contract. *)
Definition mintEvent : Event :=
  mkEvent "0x00" "0xaa" 42 "0xh0" 0 (Some "0x0c") (Some "0xaa") 0.

(** A mint in a transaction that has no to address. *)
Definition creationEvent : Event :=
  mkEvent "0x00" "0xaa" 42 "0xh7" 0 None (Some "0xaa") 0.

(** 0xaa burns token 42. *)
Definition burnEvent : Event :=
  mkEvent "0xaa" "0x00" 42 "0xh9" 0 (Some "0x0c") (Some "0xaa") 4.

(** 0xbb buys token 42 from 0xaa through OpenSeaV1, then token 43. *)
Definition tradeEvent : Event :=
  mkEvent "0xaa" "0xbb" 42 "0xh1" 5 (Some "0x01") (Some "0xbb") 3.

Definition secondTradeEvent : Event :=
  mkEvent "0xaa" "0xbb" 43 "0xh3" 9 (Some "0x01") (Some "0xbb") 0.

(** 0xaa calls the contract to transfer token 42 from itself to itself. *)
Definition selfEvent : Event :=
  mkEvent "0xaa" "0xaa" 42 "0xh2" 0 (Some "0x0c") (Some "0xaa") 1.

(** 0xaa calls the contract to give token 42 to 0xbb, and 0xbb calls it to
    transfer the token from itself to itself. *)
Definition giftEvent : Event :=
  mkEvent "0xaa" "0xbb" 42 "0xh4" 0 (Some "0x0c") (Some "0xaa") 2.

Definition selfGiftEvent : Event :=
  mkEvent "0xbb" "0xbb" 42 "0xh5" 0 (Some "0x0c") (Some "0xbb") 0.

Definition afterMint : State :=
  default emptyState (runEvents exampleEnv [mintEvent] emptyState).

Definition afterTrade : State :=
  default emptyState (runEvents exampleEnv [mintEvent; tradeEvent] emptyState).

Definition afterGift : State :=
  default emptyState (runEvents exampleEnv [mintEvent; giftEvent] emptyState).

(** ** Properties of stores the handler builds *)

(** The counter of distinct marketplaces of every account, stored or yet to
    be created, is set. *)
Definition countersSet (env : Env) (st : State) : Prop :=
  forall id, is_Some (uniqueMarketplacesCount (resolveAccount env id st)).

(** The counter of every account is set, not negative and at most the number
    of interaction rows that refer to the account. *)
Definition countsBounded (env : Env) (st : State) : Prop :=
  forall id, exists c,
    uniqueMarketplacesCount (resolveAccount env id st) = Some c
    /\ 0 <= c <= Z.of_nat (ownedInteractions id st).

(** Every interaction row sits under the key of its account and of some tag,
    carries that tag's display string, counts at least one transaction and
    refers to a stored account. *)
Definition rowsWellFormed (env : Env) (st : State) : Prop :=
  forall key r, interactions st !! key = Some r ->
    1 <= transactionCount r
    /\ is_Some (accounts st !! account r)
    /\ exists tag, key = interactionKey env (account r) tag
                   /\ marketplace r = getMarketplaceName tag.

(** Every Transfer row refers to two stored accounts and carries the display
    string of some tag. *)
Definition transfersWellFormed (st : State) : Prop :=
  forall id t, transfers st !! id = Some t ->
    is_Some (accounts st !! transfer_from t)
    /\ is_Some (accounts st !! transfer_to t)
    /\ exists tag, transfer_marketplace t = getMarketplaceName tag.

(** The lines an event adds to the log. *)
Definition eventDiagnostics (env : Env) (event : Event) : list LogEntry :=
  marketplaceDiagnostics env event
  ++ (if notMintOrBurn env event then [] else [skipDiagnostic event]).

(** Whether a string holds the separator of the interaction key. *)
Fixpoint hasDash (s : string) : bool :=
  match s with
  | EmptyString => false
  | String c rest => if Ascii.eqb c "-"%char then true else hasDash rest
  end.

(** ** Stores the compiled handler can read

    The schema declares the five counters of an Account [BigInt!]: the
    getter the handler reads them through hands out a number, never null, and
    the handler stops at a counter that was never set.  On the stores below
    every read finds a number, the second branch of [ifSet] is not taken and
    [deref] does not abort. *)
Definition accountInitialised (a : Account) : Prop :=
  is_Some (sendCount a) /\ is_Some (receiveCount a) /\ is_Some (totalSpent a)
  /\ is_Some (nftCount a) /\ is_Some (uniqueMarketplacesCount a).

Definition storeInitialised (env : Env) (st : State) : Prop :=
  forall id, accountInitialised (resolveAccount env id st).

(** [marketplace.toString()] as the language defines it on an enum: the
    members of an enum are 32-bit integers numbered from zero in the order
    of declaration, and [toString()] gives the decimal numeral.  The enum of
    utils/helper is not part of the sources; its members are taken in the
    order of the schema's enum, which is also the order of the tests of
    [getMarketplaceName]. *)
Definition Marketplace_ordinal (tag : Marketplace) : string :=
  match tag with
  | OpenSeaV1 => "0"
  | OpenSeaV2 => "1"
  | SeaPort => "2"
  | LooksRare => "3"
  | OxProtocol => "4"
  | OxProtocolV2 => "5"
  | Blur => "6"
  | Rarible => "7"
  | X2Y2 => "8"
  | NFTX => "9"
  | GenieSwap => "10"
  | CryptoCoven => "11"
  | Unknown => "12"
  end.

(** The configuration of the compiled mapping, on the address table of
    [exampleEnv]: the enum renders as its ordinal, and a created account has
    its five counters at zero, so that every counter the handler reads is
    set. *)
Definition ordinalEnv : Env :=
  mkEnv "0x00" "0x01" "0x02" "0x03" "0x04" "0x05" "0x06" "0x07" "0x08" "0x09"
        "0x0a" "0x0b" "0x0c"
        Marketplace_ordinal
        toHexDigits
        (fun _ _ => false)
        (fun _ => mkAccount None (Some 0) (Some 0) (Some 0) (Some 0) (Some 0)).

(** The stores of the compiled mapping after the mint of token 42 to 0xaa,
    after its sale to 0xbb through OpenSeaV1, and after a longer history with
    two self-transfers. *)
Definition mintedStore : State :=
  default emptyState (runEvents ordinalEnv [mintEvent] emptyState).

Definition soldStore : State :=
  default emptyState (runEvents ordinalEnv [mintEvent; tradeEvent] emptyState).

Definition busyStore : State :=
  default emptyState
    (runEvents ordinalEnv [mintEvent; selfEvent; giftEvent; selfGiftEvent] emptyState).

Definition tradedStore : State :=
  default emptyState
    (runEvents ordinalEnv [mintEvent; tradeEvent; secondTradeEvent; burnEvent]
               emptyState).

(** * Results *)

(** ** Basic facts *)

Lemma Address_equals_true (a b : string) : Address_equals a b = true <-> a = b.
Proof. unfold Address_equals. apply String.eqb_eq. Qed.

Lemma Address_equals_false (a b : string) : Address_equals a b = false <-> a <> b.
Proof. unfold Address_equals. apply String.eqb_neq. Qed.

Lemma Address_equals_decide (a b : string) :
  Address_equals a b = bool_decide (b = a).
Proof.
  destruct (Address_equals a b) eqn:E.
  - apply Address_equals_true in E. subst. by rewrite bool_decide_eq_true_2.
  - apply Address_equals_false in E. rewrite bool_decide_eq_false_2; congruence.
Qed.

Lemma notMintOrBurn_true env event :
  notMintOrBurn env event = true <->
  params_from event <> ZERO_ADDRESS env /\ params_to event <> ZERO_ADDRESS env.
Proof.
  unfold notMintOrBurn.
  rewrite andb_true_iff, !negb_true_iff, !Address_equals_false. tauto.
Qed.

Lemma notMintOrBurn_false env event :
  notMintOrBurn env event = false <->
  params_from event = ZERO_ADDRESS env \/ params_to event = ZERO_ADDRESS env.
Proof.
  unfold notMintOrBurn.
  rewrite andb_false_iff, !negb_false_iff, !Address_equals_true. tauto.
Qed.

Lemma append_String c a s : String c a +:+ s = String c (a +:+ s).
Proof. reflexivity. Qed.

Lemma append_length a s :
  String.length (a +:+ s) = (String.length a + String.length s)%nat.
Proof.
  induction a as [|c a IH]; [reflexivity|].
  rewrite append_String. simpl. by rewrite IH.
Qed.

Lemma append_cancel_r s a b : a +:+ s = b +:+ s -> a = b.
Proof.
  revert b. induction a as [|c a IH]; intros [|d b] H.
  - reflexivity.
  - apply (f_equal String.length) in H. rewrite !append_length in H.
    simpl in H. lia.
  - apply (f_equal String.length) in H. rewrite !append_length in H.
    simpl in H. lia.
  - rewrite !append_String in H. injection H as -> H. f_equal. by apply IH.
Qed.

(** Two accounts never share an interaction key for one tag. *)
Lemma interactionKey_inj env a b tag :
  interactionKey env a tag = interactionKey env b tag -> a = b.
Proof. unfold interactionKey. apply append_cancel_r. Qed.

(** ** The copies of the two accounts *)

Section Copies.
Variables (env : Env) (event : Event) (a : Account).

Lemma senderCopy_uniqueMarketplacesCount :
  uniqueMarketplacesCount (senderCopy env event a) = uniqueMarketplacesCount a.
Proof. unfold senderCopy. by destruct (notMintOrBurn env event). Qed.

Lemma recipientCopy_uniqueMarketplacesCount :
  uniqueMarketplacesCount (recipientCopy env event a) = uniqueMarketplacesCount a.
Proof. unfold recipientCopy. by destruct (notMintOrBurn env event). Qed.

Lemma senderCopy_sendCount :
  sendCount (senderCopy env event a) = Some (default 0 (sendCount a) + 1).
Proof.
  unfold senderCopy. destruct (notMintOrBurn env event); simpl;
    by destruct (sendCount a).
Qed.

Lemma recipientCopy_receiveCount :
  receiveCount (recipientCopy env event a) = Some (default 0 (receiveCount a) + 1).
Proof.
  unfold recipientCopy. destruct (notMintOrBurn env event); simpl;
    by destruct (receiveCount a).
Qed.

Lemma recipientCopy_totalSpent :
  totalSpent (recipientCopy env event a)
  = Some (default 0 (totalSpent a) + transaction_value event).
Proof.
  unfold recipientCopy. destruct (notMintOrBurn env event); simpl;
    by destruct (totalSpent a).
Qed.

Lemma recipientCopy_sendCount :
  sendCount (recipientCopy env event a) = sendCount a.
Proof. unfold recipientCopy. by destruct (notMintOrBurn env event). Qed.

Lemma senderCopy_nftCount_mintBurn :
  notMintOrBurn env event = false ->
  nftCount (senderCopy env event a) = nftCount a.
Proof. unfold senderCopy. by intros ->. Qed.

Lemma recipientCopy_nftCount_mintBurn :
  notMintOrBurn env event = false ->
  nftCount (recipientCopy env event a) = nftCount a.
Proof. unfold recipientCopy. by intros ->. Qed.

Lemma senderCopy_nftCount_transfer :
  notMintOrBurn env event = true ->
  nftCount (senderCopy env event a)
  = match nftCount a with Some n => Some (n - 1) | None => Some 0 end.
Proof. unfold senderCopy. intros ->. simpl. by destruct (nftCount a). Qed.

Lemma recipientCopy_nftCount_transfer :
  notMintOrBurn env event = true ->
  nftCount (recipientCopy env event a) = Some (default 0 (nftCount a) + 1).
Proof. unfold recipientCopy. intros ->. simpl. by destruct (nftCount a). Qed.
End Copies.

(** ** The interaction table *)

Lemma upsertInteraction_lookup_eq key accountId tag m :
  upsertInteraction key accountId tag m !! key =
  Some (match m !! key with
        | None => mkInteraction accountId (getMarketplaceName tag) 1
        | Some r => mkInteraction (account r) (marketplace r) (transactionCount r + 1)
        end).
Proof.
  unfold upsertInteraction. destruct (m !! key); by rewrite lookup_insert_eq.
Qed.

Lemma upsertInteraction_lookup_ne key key' accountId tag m :
  key <> key' -> upsertInteraction key accountId tag m !! key' = m !! key'.
Proof.
  intros Hne. unfold upsertInteraction.
  destruct (m !! key); by rewrite lookup_insert_ne.
Qed.

Lemma ownedIn_upsert id key accountId tag m :
  ownedIn id (upsertInteraction key accountId tag m) =
  match m !! key with
  | None => if decide (accountId = id) then S (ownedIn id m) else ownedIn id m
  | Some _ => ownedIn id m
  end.
Proof.
  unfold ownedIn, upsertInteraction.
  destruct (m !! key) as [r|] eqn:Hk.
  - destruct (decide (account r = id)) as [Hr|Hr].
    + rewrite map_filter_insert_True by done.
      apply map_size_insert_Some. exists r.
      by apply map_lookup_filter_Some_2.
    + rewrite map_filter_insert_not'; [reflexivity|done|].
      intros y Hy. by simplify_eq.
  - case_decide as Ha.
    + rewrite map_filter_insert_True by done.
      apply map_size_insert_None. apply map_lookup_filter_None_2. by left.
    + rewrite map_filter_insert_not'; [reflexivity|done|].
      intros y Hy. congruence.
Qed.

Lemma countMarketplace_is_Some key m a :
  is_Some (uniqueMarketplacesCount a) -> is_Some (countMarketplace key m a).
Proof.
  intros [c Hc]. unfold countMarketplace. rewrite Hc.
  destruct (m !! key); eauto.
Qed.

Lemma countMarketplace_existing key m a r :
  m !! key = Some r -> countMarketplace key m a = Some a.
Proof. unfold countMarketplace. by intros ->. Qed.

(** Tracking touches no field of the account copy but the counter of
    distinct marketplaces. *)
Lemma countMarketplace_fields key m a a' :
  countMarketplace key m a = Some a' ->
  txHash a' = txHash a /\ sendCount a' = sendCount a
  /\ receiveCount a' = receiveCount a /\ totalSpent a' = totalSpent a
  /\ nftCount a' = nftCount a.
Proof.
  unfold countMarketplace. intros H.
  destruct (m !! key); [by simplify_eq|].
  destruct (uniqueMarketplacesCount a); by simplify_eq.
Qed.

Lemma countMarketplace_counter key m a a' :
  countMarketplace key m a = Some a' ->
  uniqueMarketplacesCount a' =
  match m !! key with
  | Some _ => uniqueMarketplacesCount a
  | None => (fun c => c + 1) <$> uniqueMarketplacesCount a
  end.
Proof.
  unfold countMarketplace. destruct (m !! key); [by intros [= <-]|].
  destruct (uniqueMarketplacesCount a); [by intros [= <-]|discriminate].
Qed.

(** ** Running the handler *)

Lemma getOrCreateAccount_run env address st :
  getOrCreateAccount env address st = Some (resolveAccount env address st, st).
Proof.
  unfold getOrCreateAccount, resolveAccount, bind, Account_load, Address_toHex.
  destruct (accounts st !! address); reflexivity.
Qed.

(** The diagnostics change nothing but the log. *)
Lemma logMarketplace_run env event st :
  logMarketplace env event (eventTag env event) (transaction_to event)
                 (transaction_from event) st
  = Some (tt, mkState (accounts st) (interactions st) (transfers st)
                      (logs st ++ marketplaceDiagnostics env event)).
Proof.
  unfold logMarketplace, marketplaceDiagnostics, log_info, ret, Bytes_toHex.
  repeat case_match; try reflexivity.
  all: destruct st; simpl; by rewrite app_nil_r.
Qed.

Lemma trackInteraction_run env accountId acct tag st :
  trackInteraction env accountId acct tag st =
  match countMarketplace (interactionKey env accountId tag) (interactions st) acct with
  | Some acct' =>
    Some (acct', mkState (accounts st)
                         (upsertInteraction (interactionKey env accountId tag)
                                            accountId tag (interactions st))
                         (transfers st) (logs st))
  | None => None
  end.
Proof.
  unfold trackInteraction, countMarketplace, upsertInteraction, interactionKey,
    bind, MarketplaceInteraction_load, MarketplaceInteraction_save, deref, ret,
    abort, set_transactionCount, BIGINT_ONE.
  destruct (interactions st !! _) as [r|]; simpl; [reflexivity|].
  destruct (uniqueMarketplacesCount acct); reflexivity.
Qed.

(** A mint or a burn always runs to completion. *)
Lemma runHandler_mintBurn env event st :
  notMintOrBurn env event = false ->
  runHandler env event st = Some (mintBurnResult env event st).
Proof.
  intros Hz. unfold runHandler, handleTransfer.
  unfold bind at 1. rewrite getOrCreateAccount_run.
  unfold bind at 1. rewrite getOrCreateAccount_run.
  cbv zeta. rewrite Hz.
  unfold bind at 1. unfold Account_save at 1. cbv beta iota.
  unfold bind at 1. unfold Account_save at 1. cbv beta iota.
  unfold bind.
  fold (eventTag env event).
  rewrite logMarketplace_run.
  unfold log_info, mintBurnResult, senderCopy, recipientCopy, skipDiagnostic,
    Address_toHex, Bytes_toHex.
  rewrite Hz. simpl. by rewrite <- app_assoc.
Qed.

(** A transfer between non-zero addresses runs to completion exactly when
    neither tracking step adds to an unset counter. *)
Lemma runHandler_transfer env event st :
  notMintOrBurn env event = true ->
  let fromId := params_from event in
  let toId := params_to event in
  let tag := eventTag env event in
  runHandler env event st =
  match countMarketplace (interactionKey env fromId tag) (interactions st)
                         (senderCopy env event (resolveAccount env fromId st)) with
  | None => None
  | Some fromAccount =>
    match countMarketplace (interactionKey env toId tag)
            (upsertInteraction (interactionKey env fromId tag) fromId tag
                               (interactions st))
            (recipientCopy env event (resolveAccount env toId st)) with
    | None => None
    | Some toAccount => Some (transferResult env event st fromAccount toAccount)
    end
  end.
Proof.
  intros Hz fromId toId tag. unfold runHandler, handleTransfer.
  unfold bind at 1. rewrite getOrCreateAccount_run.
  unfold bind at 1. rewrite getOrCreateAccount_run.
  cbv zeta. rewrite Hz.
  unfold bind at 1. unfold Account_save at 1. cbv beta iota.
  unfold bind at 1. unfold Account_save at 1. cbv beta iota.
  unfold bind at 1.
  fold (eventTag env event).
  rewrite logMarketplace_run.
  unfold bind at 1. rewrite trackInteraction_run.
  unfold senderCopy, recipientCopy. rewrite Hz.
  unfold Address_toHex, Bytes_toHex. simpl.
  fold fromId toId tag.
  destruct (countMarketplace (interactionKey env fromId tag) _ _) as [fa|]; [|reflexivity].
  unfold bind at 1. rewrite trackInteraction_run. simpl.
  destruct (countMarketplace (interactionKey env toId tag) _ _) as [ta|]; [|reflexivity].
  unfold transferResult, transferId, senderCopy, recipientCopy, bind, Account_save,
    CovenTransfer_save.
  rewrite Hz. reflexivity.
Qed.

(** A transfer between non-zero addresses runs to completion when both
    accounts have their counter of distinct marketplaces set. *)
Lemma runHandler_transfer_total env event st :
  notMintOrBurn env event = true ->
  is_Some (uniqueMarketplacesCount (resolveAccount env (params_from event) st)) ->
  is_Some (uniqueMarketplacesCount (resolveAccount env (params_to event) st)) ->
  exists fromAccount toAccount,
    countMarketplace (interactionKey env (params_from event) (eventTag env event))
      (interactions st)
      (senderCopy env event (resolveAccount env (params_from event) st))
    = Some fromAccount
    /\ countMarketplace (interactionKey env (params_to event) (eventTag env event))
         (upsertInteraction (interactionKey env (params_from event) (eventTag env event))
            (params_from event) (eventTag env event) (interactions st))
         (recipientCopy env event (resolveAccount env (params_to event) st))
       = Some toAccount
    /\ runHandler env event st = Some (transferResult env event st fromAccount toAccount).
Proof.
  intros Hz Hf Ht.
  rewrite <- (senderCopy_uniqueMarketplacesCount env event) in Hf.
  rewrite <- (recipientCopy_uniqueMarketplacesCount env event) in Ht.
  destruct (countMarketplace_is_Some
              (interactionKey env (params_from event) (eventTag env event))
              (interactions st) _ Hf) as [fa Hfa].
  destruct (countMarketplace_is_Some
              (interactionKey env (params_to event) (eventTag env event))
              (upsertInteraction
                 (interactionKey env (params_from event) (eventTag env event))
                 (params_from event) (eventTag env event) (interactions st))
              _ Ht) as [ta Hta].
  exists fa, ta. split; [exact Hfa|]. split; [exact Hta|].
  rewrite runHandler_transfer by assumption. cbv zeta. by rewrite Hfa, Hta.
Qed.

(** What [getOrCreateAccount] resolves after two saves. *)
Lemma resolveAccount_saved env id st fromId toId fromA toA ints trs lg :
  resolveAccount env id
    (mkState (<[toId := toA]> (<[fromId := fromA]> (accounts st))) ints trs lg)
  = if decide (toId = id) then toA
    else if decide (fromId = id) then fromA
    else resolveAccount env id st.
Proof.
  unfold resolveAccount. simpl.
  rewrite lookup_insert. case_decide; [reflexivity|].
  rewrite lookup_insert. case_decide; reflexivity.
Qed.

(** ** The marketplace classifier *)

Lemma firstMatch_Unknown table a b :
  (forall tag known, (tag, known) ∈ table -> known <> a /\ known <> b) ->
  firstMatch table a b = Unknown.
Proof.
  induction table as [|[tag known] rest IH]; intros Hno; [reflexivity|].
  simpl. destruct (Hno tag known) as [Ha Hb]; [apply list_elem_of_here|].
  rewrite !bool_decide_eq_false_2 by assumption. simpl.
  apply IH. intros t k Hin. apply (Hno t k). by apply list_elem_of_further.
Qed.

(** C2: the classifier of lines 117-148 is the first-match walk over the
    ordered table OpenSeaV1, OpenSeaV2, SeaPort, LooksRare, OxProtocol,
    OxProtocolV2, Blur, Rarible, X2Y2, NFTX, GenieSwap, CryptoCoven, testing
    each known address against the transaction's to (candidate A) or from
    (candidate B); it answers Unknown when a candidate is null and when no
    known address equals a candidate. *)
Theorem classifyMarketplace_first_match (env : Env) (candA candB : option string) :
  classifyMarketplace env candA candB = classifySpec env candA candB
  /\ map fst (knownMarketplaces env) =
     [OpenSeaV1; OpenSeaV2; SeaPort; LooksRare; OxProtocol; OxProtocolV2; Blur;
      Rarible; X2Y2; NFTX; GenieSwap; CryptoCoven]
  /\ (candA = None \/ candB = None -> classifyMarketplace env candA candB = Unknown)
  /\ (forall a b, candA = Some a -> candB = Some b ->
      (forall tag known, (tag, known) ∈ knownMarketplaces env ->
                         known <> a /\ known <> b) ->
      classifyMarketplace env candA candB = Unknown).
Proof.
  assert (Heq : classifyMarketplace env candA candB = classifySpec env candA candB).
  { unfold classifyMarketplace, classifySpec.
    destruct candA as [a|], candB as [b|]; try reflexivity.
    unfold knownMarketplaces, firstMatch.
    rewrite !Address_equals_decide. reflexivity. }
  split; [exact Heq|]. split; [reflexivity|]. split.
  - intros [-> | ->]; [reflexivity|]. by destruct candA.
  - intros a b -> -> Hno. rewrite Heq. unfold classifySpec.
    by apply firstMatch_Unknown.
Qed.

(** C9: the classifier is a total function into the closed set of thirteen
    tags: every pair of optional addresses, the pair of nulls included, has
    exactly one tag, and the pair of nulls has Unknown. *)
Theorem classifyMarketplace_total (env : Env) (sender receiver : option string) :
  (exists tag, tag ∈ allTags /\ classifyMarketplace env sender receiver = tag
               /\ forall tag', classifyMarketplace env sender receiver = tag' -> tag' = tag)
  /\ NoDup allTags
  /\ length allTags = 13%nat
  /\ classifyMarketplace env None None = Unknown.
Proof.
  split; [|split; [|split]].
  - exists (classifyMarketplace env sender receiver).
    split; [|split; [reflexivity|congruence]].
    destruct (classifyMarketplace env sender receiver); unfold allTags;
      repeat (first [ by apply list_elem_of_here | apply list_elem_of_further ]).
  - unfold allTags. apply (bool_decide_unpack _). vm_compute. exact I.
  - reflexivity.
  - reflexivity.
Qed.

(** ** Mints and burns *)

(** C3: when the sender or the recipient of the NFT transfer is the zero
    address the handler runs to completion; it saves the sender's copy with
    its send count raised by one and then the recipient's copy with its
    receive count raised by one and the transaction's value added to its total
    spent; the interaction table is left as it was, and every account, stored
    before or resolved anew, has the same count of distinct marketplaces and
    the same NFT count as before. *)
Theorem mintBurn_updates_counters_only (env : Env) (event : Event) (st : State) :
  params_from event = ZERO_ADDRESS env \/ params_to event = ZERO_ADDRESS env ->
  exists st' fromAccount toAccount,
    runHandler env event st = Some st'
    /\ accounts st' =
       <[params_to event := toAccount]>
         (<[params_from event := fromAccount]> (accounts st))
    /\ sendCount fromAccount =
       Some (default 0 (sendCount (resolveAccount env (params_from event) st)) + 1)
    /\ receiveCount toAccount =
       Some (default 0 (receiveCount (resolveAccount env (params_to event) st)) + 1)
    /\ totalSpent toAccount =
       Some (default 0 (totalSpent (resolveAccount env (params_to event) st))
             + transaction_value event)
    /\ interactions st' = interactions st
    /\ (forall id,
          uniqueMarketplacesCount (resolveAccount env id st')
          = uniqueMarketplacesCount (resolveAccount env id st)
          /\ nftCount (resolveAccount env id st') = nftCount (resolveAccount env id st))
    /\ (forall id a,
          accounts st !! id = Some a ->
          exists a', accounts st' !! id = Some a'
                     /\ uniqueMarketplacesCount a' = uniqueMarketplacesCount a
                     /\ nftCount a' = nftCount a).
Proof.
  intros Hz. apply notMintOrBurn_false in Hz.
  exists (mintBurnResult env event st),
         (senderCopy env event (resolveAccount env (params_from event) st)),
         (recipientCopy env event (resolveAccount env (params_to event) st)).
  split; [by apply runHandler_mintBurn|].
  split; [reflexivity|].
  split; [apply senderCopy_sendCount|].
  split; [apply recipientCopy_receiveCount|].
  split; [apply recipientCopy_totalSpent|].
  split; [reflexivity|].
  assert (Hsame : forall id,
            uniqueMarketplacesCount (resolveAccount env id (mintBurnResult env event st))
            = uniqueMarketplacesCount (resolveAccount env id st)
            /\ nftCount (resolveAccount env id (mintBurnResult env event st))
               = nftCount (resolveAccount env id st)).
  { intros id. unfold mintBurnResult. rewrite resolveAccount_saved.
    repeat case_decide; subst;
      rewrite ?senderCopy_uniqueMarketplacesCount,
        ?recipientCopy_uniqueMarketplacesCount,
        ?senderCopy_nftCount_mintBurn, ?recipientCopy_nftCount_mintBurn by assumption;
      by split. }
  split; [exact Hsame|].
  intros id a Ha. specialize (Hsame id).
  assert (Hst : is_Some (accounts (mintBurnResult env event st) !! id)).
  { unfold mintBurnResult. simpl.
    rewrite lookup_insert. case_decide; [eauto|].
    rewrite lookup_insert. case_decide; eauto. }
  destruct Hst as [a' Ha']. exists a'. split; [exact Ha'|].
  unfold resolveAccount in Hsame. by rewrite Ha, Ha' in Hsame.
Qed.

Lemma mintBurn_updates_counters_only_witness :
  exists st' fromAccount toAccount,
    runHandler exampleEnv mintEvent emptyState = Some st'
    /\ accounts st' = <[ "0xaa" := toAccount]> (<[ "0x00" := fromAccount]> ∅)
    /\ sendCount fromAccount = Some 1
    /\ receiveCount toAccount = Some 1
    /\ totalSpent toAccount = Some 0
    /\ interactions st' = ∅.
Proof.
  destruct (mintBurn_updates_counters_only exampleEnv mintEvent emptyState)
    as (st' & fa & ta & H1 & H2 & H3 & H4 & H5 & H6 & _).
  - left. reflexivity.
  - exists st', fa, ta. repeat split; assumption.
Defined.

(** C6: when the sender or the recipient of the NFT transfer is the zero
    address the handler runs to completion without saving the Transfer entity
    it built: the Transfer table is the one it started from, so it holds no
    row for the event unless it already did; both accounts are saved, the
    sender's first; and the last line of the log is the note that interaction
    tracking was skipped. *)
Theorem mintBurn_transfer_not_saved (env : Env) (event : Event) (st : State) :
  params_from event = ZERO_ADDRESS env \/ params_to event = ZERO_ADDRESS env ->
  exists st',
    runHandler env event st = Some st'
    /\ transfers st' = transfers st
    /\ (transfers st !! transferId env event = None ->
        transfers st' !! transferId env event = None)
    /\ accounts st' =
       <[params_to event := recipientCopy env event
                              (resolveAccount env (params_to event) st)]>
         (<[params_from event := senderCopy env event
                                   (resolveAccount env (params_from event) st)]>
            (accounts st))
    /\ is_Some (accounts st' !! params_from event)
    /\ is_Some (accounts st' !! params_to event)
    /\ last (logs st') = Some (skipDiagnostic event)
    /\ fst (skipDiagnostic event) =
       "Skipping marketplace interaction tracking for zero address transfers: {}".
Proof.
  intros Hz. apply notMintOrBurn_false in Hz.
  exists (mintBurnResult env event st).
  split; [by apply runHandler_mintBurn|].
  unfold mintBurnResult. simpl.
  split; [reflexivity|]. split; [tauto|]. split; [reflexivity|].
  split; [|split; [|split]].
  - rewrite lookup_insert. case_decide; [eauto|]. rewrite lookup_insert_eq. eauto.
  - rewrite lookup_insert_eq. eauto.
  - rewrite app_assoc. apply last_snoc.
  - reflexivity.
Qed.

Lemma mintBurn_transfer_not_saved_witness :
  exists st',
    runHandler exampleEnv burnEvent afterMint = Some st'
    /\ transfers st' = transfers afterMint
    /\ is_Some (accounts st' !! "0xaa")
    /\ is_Some (accounts st' !! "0x00")
    /\ last (logs st') = Some (skipDiagnostic burnEvent).
Proof.
  destruct (mintBurn_transfer_not_saved exampleEnv burnEvent afterMint)
    as (st' & H1 & H2 & _ & _ & H3 & H4 & H5 & _).
  - right. reflexivity.
  - exists st'. repeat split; assumption.
Defined.

(** ** Transfers between two non-zero addresses *)




(** C5 as amended: on a transfer between non-zero addresses classified with
    tag T, both accounts having their counters set, the handler runs to
    completion and the interaction table is the table before with the row
    under [fromId + "-" + T.toString()] upserted and then the row under
    [toId + "-" + T.toString()] upserted, where an upsert creates the row with
    the account's id, the tag's display string and a transaction count of
    one, or raises the count of the existing row by one.  Where the enum
    renders as its ordinal the key of an OpenSeaV1 row is the account id
    followed by -0. *)
Theorem transfer_interaction_rows (env : Env) (event : Event) (st : State) :
  params_from event <> ZERO_ADDRESS env ->
  params_to event <> ZERO_ADDRESS env ->
  accountInitialised (resolveAccount env (params_from event) st) ->
  accountInitialised (resolveAccount env (params_to event) st) ->
  let tag := eventTag env event in
  let fromKey := params_from event +:+ "-" +:+ Marketplace_toString env tag in
  let toKey := params_to event +:+ "-" +:+ Marketplace_toString env tag in
  exists st',
    runHandler env event st = Some st'
    /\ interactions st' =
       upsertInteraction toKey (params_to event) tag
         (upsertInteraction fromKey (params_from event) tag (interactions st))
    /\ (params_from event <> params_to event ->
        interactions st' !! fromKey =
        Some (match interactions st !! fromKey with
              | None => mkInteraction (params_from event) (getMarketplaceName tag) 1
              | Some r => mkInteraction (account r) (marketplace r)
                                        (transactionCount r + 1)
              end)
        /\ interactions st' !! toKey =
           Some (match interactions st !! toKey with
                 | None => mkInteraction (params_to event) (getMarketplaceName tag) 1
                 | Some r => mkInteraction (account r) (marketplace r)
                                           (transactionCount r + 1)
                 end))
    /\ ((forall t, Marketplace_toString env t = Marketplace_ordinal t) ->
        tag = OpenSeaV1 ->
        fromKey = params_from event +:+ "-0" /\ toKey = params_to event +:+ "-0")
    /\ getMarketplaceName OpenSeaV1 = "OpenSeaV1".
Proof.
  intros Hf Ht (_ & _ & _ & _ & Uf) (_ & _ & _ & _ & Ut) tag fromKey toKey.
  assert (Hz : notMintOrBurn env event = true)
    by (apply notMintOrBurn_true; split; assumption).
  destruct (runHandler_transfer_total env event st Hz Uf Ut)
    as (fa & ta & _ & _ & Hrun).
  exists (transferResult env event st fa ta). split; [exact Hrun|].
  split; [reflexivity|]. split; [|split; [|reflexivity]].
  - intros Hne.
    assert (Hk : fromKey <> toKey).
    { intros Hk. apply Hne. by apply (interactionKey_inj env _ _ tag). }
    unfold transferResult. simpl.
    fold tag. change (interactionKey env (params_from event) tag) with fromKey.
    change (interactionKey env (params_to event) tag) with toKey.
    split.
    + rewrite upsertInteraction_lookup_ne by congruence.
      apply upsertInteraction_lookup_eq.
    + rewrite upsertInteraction_lookup_eq.
      by rewrite upsertInteraction_lookup_ne by congruence.
  - intros Hord Htag. unfold fromKey, toKey. rewrite Hord, Htag. by split.
Qed.

Lemma transfer_interaction_rows_witness :
  exists st',
    runHandler ordinalEnv tradeEvent mintedStore = Some st'
    /\ interactions st' !! "0xaa-0" = Some (mkInteraction "0xaa" "OpenSeaV1" 1)
    /\ interactions st' !! "0xbb-0" = Some (mkInteraction "0xbb" "OpenSeaV1" 1).
Proof.
  destruct (transfer_interaction_rows ordinalEnv tradeEvent mintedStore)
    as (st' & H1 & _ & H3 & _).
  - discriminate.
  - discriminate.
  - vm_compute. repeat split; eauto.
  - vm_compute. repeat split; eauto.
  - exists st'. split; [exact H1|]. apply H3. discriminate.
Defined.

(** C5, counterexample: in the compiled mapping's configuration 0xbb buys
    token 42 from 0xaa through OpenSeaV1.  The rows of the two accounts are
    stored under 0xaa-0 and 0xbb-0, with the display string OpenSeaV1 in
    their marketplace field; nothing is stored under 0xaa-OpenSeaV1 or
    0xbb-OpenSeaV1. *)
Lemma openSea_row_keyed_by_ordinal :
  runEvents ordinalEnv [mintEvent; tradeEvent] emptyState = Some soldStore
  /\ notMintOrBurn ordinalEnv tradeEvent = true
  /\ eventTag ordinalEnv tradeEvent = OpenSeaV1
  /\ interactions soldStore !! "0xaa-OpenSeaV1" = None
  /\ interactions soldStore !! "0xbb-OpenSeaV1" = None
  /\ interactions soldStore !! "0xaa-0" = Some (mkInteraction "0xaa" "OpenSeaV1" 1)
  /\ interactions soldStore !! "0xbb-0" = Some (mkInteraction "0xbb" "OpenSeaV1" 1).
Proof.
  split; [vm_compute; reflexivity|].
  split; [reflexivity|]. split; [reflexivity|].
  repeat split; vm_compute; reflexivity.
Qed.

(** C7 as amended: on a transfer between two distinct non-zero addresses
    that runs with both counters of distinct marketplaces set, an account of
    the event that already has an interaction row for the event's tag has the
    row's transaction count raised by one, from 1 to 2 when it was 1, and its
    stored counter of distinct marketplaces is the one the handler loaded. *)
Theorem repeated_interaction (env : Env) (event : Event) (st : State)
    (accountId : string) (r : MarketplaceInteraction) :
  params_from event <> ZERO_ADDRESS env ->
  params_to event <> ZERO_ADDRESS env ->
  params_from event <> params_to event ->
  accountId = params_from event \/ accountId = params_to event ->
  interactions st !! interactionKey env accountId (eventTag env event) = Some r ->
  is_Some (uniqueMarketplacesCount (resolveAccount env (params_from event) st)) ->
  is_Some (uniqueMarketplacesCount (resolveAccount env (params_to event) st)) ->
  exists st',
    runHandler env event st = Some st'
    /\ interactions st' !! interactionKey env accountId (eventTag env event) =
       Some (mkInteraction (account r) (marketplace r) (transactionCount r + 1))
    /\ (transactionCount r = 1 ->
        transactionCount <$>
          interactions st' !! interactionKey env accountId (eventTag env event)
        = Some 2)
    /\ uniqueMarketplacesCount <$> accounts st' !! accountId =
       Some (uniqueMarketplacesCount (resolveAccount env accountId st)).
Proof.
  intros Hf Ht Hne Hacc Hrow Uf Ut.
  assert (Hz : notMintOrBurn env event = true)
    by (apply notMintOrBurn_true; split; assumption).
  destruct (runHandler_transfer_total env event st Hz Uf Ut)
    as (fa & ta & Hfa & Hta & Hrun).
  exists (transferResult env event st fa ta). split; [exact Hrun|].
  assert (Hk : interactionKey env (params_from event) (eventTag env event)
               <> interactionKey env (params_to event) (eventTag env event)).
  { intros Hk. apply Hne. by apply interactionKey_inj in Hk. }
  assert (Hnew : interactions (transferResult env event st fa ta)
                 !! interactionKey env accountId (eventTag env event)
                 = Some (mkInteraction (account r) (marketplace r)
                                       (transactionCount r + 1))).
  { unfold transferResult. simpl. destruct Hacc as [-> | ->].
    - rewrite upsertInteraction_lookup_ne by congruence.
      by rewrite upsertInteraction_lookup_eq, Hrow.
    - rewrite upsertInteraction_lookup_eq.
      by rewrite upsertInteraction_lookup_ne, Hrow by congruence. }
  split; [exact Hnew|]. split.
  - intros H1. rewrite Hnew. simpl. by rewrite H1.
  - unfold transferResult. simpl. destruct Hacc as [-> | ->].
    + rewrite lookup_insert_ne by congruence. rewrite lookup_insert_eq. simpl.
      rewrite (countMarketplace_existing _ _ _ _ Hrow) in Hfa.
      injection Hfa as <-. by rewrite senderCopy_uniqueMarketplacesCount.
    + rewrite lookup_insert_eq. simpl.
      rewrite (countMarketplace_existing _ _ _ r) in Hta
        by (by rewrite upsertInteraction_lookup_ne by congruence).
      injection Hta as <-. by rewrite recipientCopy_uniqueMarketplacesCount.
Qed.

Lemma repeated_interaction_witness :
  uniqueMarketplacesCount <$> accounts afterTrade !! "0xaa" = Some (Some 1)
  /\ exists st',
       runHandler exampleEnv secondTradeEvent afterTrade = Some st'
       /\ transactionCount <$> interactions st' !! "0xaa-OpenSeaV1" = Some 2
       /\ uniqueMarketplacesCount <$> accounts st' !! "0xaa" = Some (Some 1).
Proof.
  split; [vm_compute; reflexivity|].
  destruct (repeated_interaction exampleEnv secondTradeEvent afterTrade "0xaa"
              (mkInteraction "0xaa" "OpenSeaV1" 1))
    as (st' & H1 & _ & H3 & H4).
  - discriminate.
  - discriminate.
  - discriminate.
  - left. reflexivity.
  - vm_compute. reflexivity.
  - vm_compute. eauto.
  - vm_compute. eauto.
  - exists st'. split; [exact H1|]. split; [apply H3; reflexivity|exact H4].
Defined.

(** C7, counterexample: 0xbb has a CryptoCoven row with one transaction
    after it was given the token; a second event with the same tag, in which
    0xbb transfers the token to itself, takes the row's count to 3, not 2. *)
Lemma self_transfer_counts_twice :
  runEvents exampleEnv [mintEvent; giftEvent] emptyState = Some afterGift
  /\ eventTag exampleEnv giftEvent = CryptoCoven
  /\ transactionCount <$> interactions afterGift !! "0xbb-CryptoCoven" = Some 1
  /\ notMintOrBurn exampleEnv selfGiftEvent = true
  /\ eventTag exampleEnv selfGiftEvent = CryptoCoven
  /\ exists st',
       runHandler exampleEnv selfGiftEvent afterGift = Some st'
       /\ transactionCount <$> interactions st' !! "0xbb-CryptoCoven" = Some 3
       /\ transactionCount <$> interactions st' !! "0xbb-CryptoCoven" <> Some 2.
Proof.
  split; [vm_compute; reflexivity|]. split; [reflexivity|].
  split; [vm_compute; reflexivity|]. split; [reflexivity|]. split; [reflexivity|].
  eexists. split; [vm_compute; reflexivity|].
  split; [vm_compute; reflexivity|vm_compute; discriminate].
Qed.

(** ** Self-transfers *)

(** C10: on a transfer from a non-zero address to itself, run with the
    account's counter of distinct marketplaces set, the handler works on two
    copies of the one loaded account and saves the sender's copy before the
    recipient's: the account stored afterwards is the recipient's copy of the
    loaded account.  Its receive count, total spent and nftCount are the
    loaded values raised; its send count is the loaded one, although the
    sender's copy had it raised by one and its nftCount lowered. *)
Theorem self_transfer_keeps_recipient_copy (env : Env) (event : Event) (st : State) :
  params_from event = params_to event ->
  params_from event <> ZERO_ADDRESS env ->
  is_Some (uniqueMarketplacesCount (resolveAccount env (params_from event) st)) ->
  let id := params_from event in
  let loaded := resolveAccount env id st in
  exists st',
    runHandler env event st = Some st'
    /\ accounts st' = <[id := recipientCopy env event loaded]> (accounts st)
    /\ sendCount <$> accounts st' !! id = Some (sendCount loaded)
    /\ receiveCount <$> accounts st' !! id =
       Some (Some (default 0 (receiveCount loaded) + 1))
    /\ totalSpent <$> accounts st' !! id =
       Some (Some (default 0 (totalSpent loaded) + transaction_value event))
    /\ nftCount <$> accounts st' !! id = Some (Some (default 0 (nftCount loaded) + 1))
    /\ uniqueMarketplacesCount <$> accounts st' !! id =
       Some (uniqueMarketplacesCount loaded)
    /\ sendCount (senderCopy env event loaded) = Some (default 0 (sendCount loaded) + 1)
    /\ nftCount (senderCopy env event loaded) =
       match nftCount loaded with Some n => Some (n - 1) | None => Some 0 end.
Proof.
  intros Hsame Hf U id loaded.
  assert (Hz : notMintOrBurn env event = true)
    by (apply notMintOrBurn_true; split; congruence).
  assert (U' : is_Some (uniqueMarketplacesCount
                          (resolveAccount env (params_to event) st)))
    by (by rewrite <- Hsame).
  destruct (runHandler_transfer_total env event st Hz U U')
    as (fa & ta & Hfa & Hta & Hrun).
  rewrite <- Hsame in Hta.
  assert (is_Some (upsertInteraction
                     (interactionKey env (params_from event) (eventTag env event))
                     (params_from event) (eventTag env event) (interactions st)
                   !! interactionKey env (params_from event) (eventTag env event)))
    as [r Hr] by (rewrite upsertInteraction_lookup_eq; eauto).
  rewrite (countMarketplace_existing _ _ _ _ Hr) in Hta. injection Hta as <-.
  exists (transferResult env event st fa
            (recipientCopy env event (resolveAccount env (params_from event) st))).
  split; [exact Hrun|].
  assert (Hacc : accounts
                   (transferResult env event st fa
                      (recipientCopy env event
                         (resolveAccount env (params_from event) st)))
                 = <[id := recipientCopy env event loaded]> (accounts st)).
  { unfold transferResult. simpl. rewrite <- Hsame.
    by rewrite !insert_insert_eq. }
  split; [exact Hacc|]. rewrite Hacc, lookup_insert_eq. simpl.
  rewrite recipientCopy_sendCount, recipientCopy_receiveCount,
    recipientCopy_totalSpent, recipientCopy_uniqueMarketplacesCount,
    senderCopy_sendCount.
  rewrite (recipientCopy_nftCount_transfer _ _ _ Hz),
    (senderCopy_nftCount_transfer _ _ _ Hz).
  repeat split; reflexivity.
Qed.

(** After its mint 0xaa has received once and never sent; the self-transfer
    leaves its send count unset and takes its receive count to two. *)
Lemma self_transfer_keeps_recipient_copy_witness :
  sendCount <$> accounts afterMint !! "0xaa" = Some None
  /\ exists st',
       runHandler exampleEnv selfEvent afterMint = Some st'
       /\ sendCount <$> accounts st' !! "0xaa" = Some None
       /\ receiveCount <$> accounts st' !! "0xaa" = Some (Some 2)
       /\ nftCount <$> accounts st' !! "0xaa" = Some (Some 1).
Proof.
  split; [vm_compute; reflexivity|].
  destruct (self_transfer_keeps_recipient_copy exampleEnv selfEvent afterMint)
    as (st' & H1 & _ & H3 & H4 & _ & H6 & _).
  - reflexivity.
  - discriminate.
  - vm_compute. eauto.
  - exists st'. split; [exact H1|]. split; [exact H3|]. split; [exact H4|exact H6].
Defined.

(** ** The counter of distinct marketplaces *)

(** C1, at a failing input: token 42 is minted to 0xaa, then 0xaa transfers
    it to itself by a call to the contract.  The handler creates the
    CryptoCoven interaction row of 0xaa and raises the counter on the
    sender's copy, then overwrites the account with the recipient's copy: one
    row refers to 0xaa and its stored counter is zero. *)
Theorem self_transfer_breaks_count :
  exists st',
    runEvents exampleEnv [mintEvent; selfEvent] emptyState = Some st'
    /\ ownedInteractions "0xaa" st' = 1%nat
    /\ uniqueMarketplacesCount <$> accounts st' !! "0xaa" = Some (Some 0)
    /\ ~ countsAgree st'.
Proof.
  eexists. split; [vm_compute; reflexivity|].
  split; [vm_compute; reflexivity|]. split; [vm_compute; reflexivity|].
  intros Hagree.
  specialize (Hagree "0xaa" (mkAccount (Some "0xh2") None (Some 2) (Some 0)
                                       (Some 1) (Some 0))).
  vm_compute in Hagree. specialize (Hagree eq_refl). discriminate.
Qed.

Lemma countsResolve_empty env :
  (forall id, uniqueMarketplacesCount (newAccount env id) = Some 0) ->
  countsResolve env emptyState.
Proof.
  intros Hnew id. unfold resolveAccount, ownedInteractions, ownedIn. simpl.
  rewrite lookup_empty, map_filter_empty, map_size_empty. apply Hnew.
Qed.

Lemma countsResolve_agree env st : countsResolve env st -> countsAgree st.
Proof.
  intros Hres id a Ha. specialize (Hres id).
  unfold resolveAccount in Hres. by rewrite Ha in Hres.
Qed.

(** One event whose sender is not its recipient runs to completion and keeps
    the counters in step with the rows. *)
Lemma countsResolve_step env event st :
  params_from event <> params_to event ->
  countsResolve env st ->
  exists st', runHandler env event st = Some st' /\ countsResolve env st'.
Proof.
  intros Hne Hres.
  destruct (notMintOrBurn env event) eqn:Hz.
  - destruct (runHandler_transfer_total env event st Hz)
      as (fa & ta & Hfa & Hta & Hrun); [rewrite Hres; eauto..|].
    exists (transferResult env event st fa ta). split; [exact Hrun|].
    apply countMarketplace_counter in Hfa, Hta.
    rewrite senderCopy_uniqueMarketplacesCount, Hres in Hfa.
    rewrite recipientCopy_uniqueMarketplacesCount, Hres in Hta.
    assert (Hk : interactionKey env (params_from event) (eventTag env event)
                 <> interactionKey env (params_to event) (eventTag env event)).
    { intros Hk. apply Hne. by apply interactionKey_inj in Hk. }
    rewrite upsertInteraction_lookup_ne in Hta by exact Hk.
    intros id. unfold ownedInteractions, transferResult, resolveAccount. simpl.
    rewrite !ownedIn_upsert.
    rewrite upsertInteraction_lookup_ne by exact Hk.
    specialize (Hres id). unfold resolveAccount, ownedInteractions in Hres.
    unfold ownedInteractions in Hfa, Hta.
    destruct (decide (params_to event = id)) as [<-|Hto];
      [|destruct (decide (params_from event = id)) as [<-|Hfrom]].
    + rewrite lookup_insert_eq. simpl. rewrite Hta.
      rewrite decide_False by exact Hne.
      destruct (interactions st !! interactionKey env (params_to event) _),
               (interactions st !! interactionKey env (params_from event) _);
        simpl; f_equal; lia.
    + rewrite lookup_insert_ne, lookup_insert_eq by assumption. simpl. rewrite Hfa.
      destruct (interactions st !! interactionKey env (params_to event) _),
               (interactions st !! interactionKey env (params_from event) _);
        simpl; f_equal; lia.
    + rewrite !lookup_insert_ne by assumption. rewrite Hres.
      by destruct (interactions st !! interactionKey env (params_to event) _),
                  (interactions st !! interactionKey env (params_from event) _).
  - exists (mintBurnResult env event st).
    split; [by apply runHandler_mintBurn|].
    intros id. unfold mintBurnResult. rewrite resolveAccount_saved.
    unfold ownedInteractions. simpl. fold (ownedInteractions id st).
    repeat case_decide; subst;
      rewrite ?senderCopy_uniqueMarketplacesCount,
        ?recipientCopy_uniqueMarketplacesCount; apply Hres.
Qed.

(** A run of the handler has one result. *)
Lemma runHandler_step_inv (I : State -> Prop) env event st st' :
  (exists st1, runHandler env event st = Some st1 /\ I st1) ->
  runHandler env event st = Some st' -> I st'.
Proof. intros (st1 & H1 & HI) Hrun. rewrite H1 in Hrun. by simplify_eq. Qed.

(** X16: with created accounts starting their counter at zero, every store
    the handler builds from the empty store by a sequence of events none of
    which transfers from an address to itself has each account's counter of
    distinct marketplaces equal to the number of interaction rows that refer
    to the account. *)
Theorem counts_agree_without_self_transfers (env : Env) (events : list Event)
    (st : State) :
  (forall id, uniqueMarketplacesCount (newAccount env id) = Some 0) ->
  Forall (fun event => params_from event <> params_to event) events ->
  runEvents env events emptyState = Some st ->
  forall id a, accounts st !! id = Some a ->
               uniqueMarketplacesCount a = Some (Z.of_nat (ownedInteractions id st)).
Proof.
  intros Hnew Hall Hrun.
  change (countsAgree st). apply countsResolve_agree with env.
  pose proof (countsResolve_empty env Hnew) as Hres.
  revert Hres Hrun. generalize emptyState as st0.
  induction Hall as [|event rest Hne _ IH]; intros st0 Hres Hrun.
  - simpl in Hrun. by simplify_eq.
  - simpl in Hrun.
    destruct (runHandler env event st0) as [st1|] eqn:H1; [|discriminate].
    apply (IH st1); [|exact Hrun].
    apply (runHandler_step_inv (countsResolve env) env event st0); [|exact H1].
    by apply countsResolve_step.
Qed.

Lemma counts_agree_without_self_transfers_example :
  uniqueMarketplacesCount <$> accounts tradedStore !! "0xbb"
  = Some (Some (Z.of_nat (ownedInteractions "0xbb" tradedStore))).
Proof.
  destruct (accounts tradedStore !! "0xbb") as [a|] eqn:Ha;
    [|vm_compute in Ha; discriminate].
  simpl. f_equal.
  apply (counts_agree_without_self_transfers ordinalEnv
           [mintEvent; tradeEvent; secondTradeEvent; burnEvent] tradedStore).
  - reflexivity.
  - repeat constructor; discriminate.
  - vm_compute. reflexivity.
  - exact Ha.
Defined.

(** ** Diagnostics *)

(** C8, at the failing inputs: when an address of the transaction is absent
    and the handler returns, the lines it added to the log start with the
    Unknown-marketplace line and hold no unusual-activity line. *)
Theorem absent_address_logs_unknown (env : Env) (event : Event) (st st' : State) :
  transaction_to event = None \/ transaction_from event = None ->
  runHandler env event st = Some st' ->
  exists rest,
    logs st' =
    (logs st ++ ("Unknown MarketPlace: {}", [transaction_hash event]) :: rest)%list
    /\ (forall entry, entry ∈ rest -> fst entry <> "Unusual Activity: {}")
    /\ (forall entry, entry ∈ marketplaceDiagnostics env event ->
                      fst entry <> "Unusual Activity: {}").
Proof.
  intros Habs Hrun.
  assert (Htag : eventTag env event = Unknown).
  { unfold eventTag, classifyMarketplace.
    destruct Habs as [-> | ->]; [reflexivity|].
    by destruct (transaction_to event). }
  assert (Hdiag : marketplaceDiagnostics env event
                  = [("Unknown MarketPlace: {}", [transaction_hash event])]).
  { unfold marketplaceDiagnostics. by rewrite Htag. }
  destruct (notMintOrBurn env event) eqn:Hz.
  - rewrite runHandler_transfer in Hrun by assumption. cbv zeta in Hrun.
    repeat case_match; try discriminate. injection Hrun as <-.
    exists []. unfold transferResult. simpl. rewrite Hdiag.
    split; [reflexivity|]. split.
    + intros entry Hin. by apply elem_of_nil in Hin.
    + intros entry Hin. apply list_elem_of_singleton in Hin. by subst.
  - rewrite runHandler_mintBurn in Hrun by assumption. injection Hrun as <-.
    exists [skipDiagnostic event]. unfold mintBurnResult. simpl. rewrite Hdiag.
    split; [reflexivity|]. split.
    + intros entry Hin. apply list_elem_of_singleton in Hin. by subst.
    + intros entry Hin. apply list_elem_of_singleton in Hin. by subst.
Qed.

Lemma absent_address_logs_unknown_witness :
  exists rest,
    logs (mintBurnResult exampleEnv creationEvent emptyState) =
    ([] ++ ("Unknown MarketPlace: {}", ["0xh7"]) :: rest)%list
    /\ forall entry, entry ∈ rest -> fst entry <> "Unusual Activity: {}".
Proof.
  destruct (absent_address_logs_unknown exampleEnv creationEvent emptyState
              (mintBurnResult exampleEnv creationEvent emptyState))
    as (rest & H1 & H2 & _).
  - left. reflexivity.
  - reflexivity.
  - exists rest. split; [exact H1|exact H2].
Defined.

(** No event makes the handler log an unusual-activity line: an absent
    address leaves the tag at Unknown, which the first test of the chain
    catches. *)
Lemma unusual_activity_never_logged env event :
  forall entry, entry ∈ marketplaceDiagnostics env event ->
                fst entry <> "Unusual Activity: {}".
Proof.
  intros entry. unfold marketplaceDiagnostics.
  destruct (decide (eventTag env event = Unknown)) as [|Hk].
  { intros Hin. apply list_elem_of_singleton in Hin. by subst. }
  case_match.
  { intros Hin. apply list_elem_of_singleton in Hin. by subst. }
  assert (Hboth : isNull (transaction_to event) || isNull (transaction_from event)
                  = false).
  { unfold eventTag, classifyMarketplace in Hk.
    destruct (transaction_to event), (transaction_from event);
      [reflexivity|congruence..]. }
  rewrite Hboth. intros Hin. by apply elem_of_nil in Hin.
Qed.

(** * Further properties of the mapping *)

(** ** Display strings and keys *)

(** X1: [getMarketplaceName] is one-to-one on the thirteen tags, gives
    thirteen distinct strings, and gives "Unknown" for the tag Unknown only. *)
Theorem getMarketplaceName_injective :
  (forall a b, getMarketplaceName a = getMarketplaceName b -> a = b)
  /\ NoDup (map getMarketplaceName allTags)
  /\ (forall a, getMarketplaceName a = "Unknown" <-> a = Unknown).
Proof.
  split; [|split].
  - intros a b. destruct a, b; vm_compute; intros H;
      first [reflexivity | discriminate H].
  - apply (bool_decide_unpack _). vm_compute. exact I.
  - intros a. split; [|by intros ->].
    destruct a; vm_compute; intros H; first [reflexivity | discriminate H].
Qed.

Lemma hasDash_append a s : hasDash (a +:+ "-" +:+ s) = true.
Proof.
  induction a as [|c a IH]; [reflexivity|].
  rewrite (append_String c a). simpl. by destruct (Ascii.eqb c "-").
Qed.

Lemma dashed_key_split a b s s' :
  hasDash s = false -> hasDash s' = false ->
  a +:+ "-" +:+ s = b +:+ "-" +:+ s' -> a = b /\ s = s'.
Proof.
  intros Hs Hs'. revert b.
  induction a as [|c a IH]; intros [|d b] H.
  - split; [reflexivity|]. by injection H.
  - exfalso. change ("" +:+ "-" +:+ s) with (String "-" s) in H.
    rewrite (append_String d b) in H.
    injection H as _ H. rewrite H, hasDash_append in Hs. discriminate.
  - exfalso. change ("" +:+ "-" +:+ s') with (String "-" s') in H.
    rewrite (append_String c a) in H.
    injection H as _ H. rewrite <- H, hasDash_append in Hs'. discriminate.
  - rewrite (append_String c a), (append_String d b) in H. injection H as -> H.
    destruct (IH b H) as [-> ->]. by split.
Qed.

(** X2: the interaction key [accountId + "-" + marketplace.toString()]
    identifies the account and the tag whenever the enum's rendering is
    one-to-one and never holds a dash, whatever characters the account ids
    hold. *)
Theorem interactionKey_injective (env : Env) (a b : string) (t t' : Marketplace) :
  (forall x y, Marketplace_toString env x = Marketplace_toString env y -> x = y) ->
  (forall x, hasDash (Marketplace_toString env x) = false) ->
  interactionKey env a t = interactionKey env b t' ->
  a = b /\ t = t'.
Proof.
  intros Hinj Hdash Hkey. unfold interactionKey in Hkey.
  apply dashed_key_split in Hkey as [-> Ht]; [|apply Hdash..].
  split; [reflexivity|]. by apply Hinj.
Qed.

Lemma interactionKey_injective_witness :
  interactionKey exampleEnv "0xa-a" Blur = interactionKey exampleEnv "0xa-a" Blur
  /\ "0xa-a" = "0xa-a" /\ Blur = Blur.
Proof.
  split; [reflexivity|].
  apply (interactionKey_injective exampleEnv "0xa-a" "0xa-a" Blur Blur).
  - intros x y. destruct x, y; vm_compute; intros H;
      first [reflexivity | discriminate H].
  - intros x. by destruct x.
  - reflexivity.
Defined.

(** ** More on the classifier *)

(** X3: the classifier does not tell the transaction's to address from its
    from address: swapping the two candidates gives the same tag. *)
Theorem classifyMarketplace_symmetric (env : Env) (sender receiver : option string) :
  classifyMarketplace env sender receiver = classifyMarketplace env receiver sender.
Proof.
  unfold classifyMarketplace.
  destruct sender as [a|], receiver as [b|]; try reflexivity.
  repeat match goal with
         | |- context [Address_equals a ?k || Address_equals b ?k] =>
           rewrite (orb_comm (Address_equals a k) (Address_equals b k))
         end.
  reflexivity.
Qed.

(** X4: a tag other than Unknown is only given when both addresses of the
    transaction are present and one of them is the known address the table
    lists for that tag. *)
Theorem classifyMarketplace_sound (env : Env) (sender receiver : option string)
    (tag : Marketplace) :
  classifyMarketplace env sender receiver = tag ->
  tag <> Unknown ->
  exists a b known,
    sender = Some a /\ receiver = Some b
    /\ (tag, known) ∈ knownMarketplaces env
    /\ (known = a \/ known = b).
Proof.
  unfold classifyMarketplace. intros Hc Hk.
  destruct sender as [a|]; [|congruence].
  destruct receiver as [b|]; [|congruence].
  exists a, b.
  repeat match type of Hc with
         | (if ?c then _ else _) = _ => destruct c eqn:?
         end;
    try congruence; subst tag;
    match goal with
    | H : Address_equals a ?k || Address_equals b ?k = true |- _ =>
      exists k; split; [reflexivity|]; split; [reflexivity|];
      split;
      [ unfold knownMarketplaces;
        repeat (first [ by apply list_elem_of_here | apply list_elem_of_further ])
      | apply orb_true_iff in H as [H|H]; apply Address_equals_true in H; auto ]
    end.
Qed.

Lemma classifyMarketplace_sound_witness :
  exists a b known,
    Some "0xbb" = Some a /\ Some "0x07" = Some b
    /\ (Blur, known) ∈ knownMarketplaces exampleEnv
    /\ (known = a \/ known = b).
Proof.
  apply (classifyMarketplace_sound exampleEnv (Some "0xbb") (Some "0x07") Blur).
  - reflexivity.
  - discriminate.
Defined.

(** ** One event, whatever its kind *)

(** The two ways the handler returns. *)
Lemma runHandler_cases env event st st' :
  runHandler env event st = Some st' ->
  (notMintOrBurn env event = false /\ st' = mintBurnResult env event st)
  \/ (notMintOrBurn env event = true
      /\ exists fa ta,
           countMarketplace
             (interactionKey env (params_from event) (eventTag env event))
             (interactions st)
             (senderCopy env event (resolveAccount env (params_from event) st))
           = Some fa
           /\ countMarketplace
                (interactionKey env (params_to event) (eventTag env event))
                (upsertInteraction
                   (interactionKey env (params_from event) (eventTag env event))
                   (params_from event) (eventTag env event) (interactions st))
                (recipientCopy env event (resolveAccount env (params_to event) st))
              = Some ta
           /\ st' = transferResult env event st fa ta).
Proof.
  intros Hrun. destruct (notMintOrBurn env event) eqn:Hz.
  - right. split; [reflexivity|].
    rewrite runHandler_transfer in Hrun by assumption. cbv zeta in Hrun.
    destruct (countMarketplace _ (interactions st) _) as [fa|]; [|discriminate].
    destruct (countMarketplace _ (upsertInteraction _ _ _ _) _) as [ta|];
      [|discriminate].
    exists fa, ta. by simplify_eq.
  - left. split; [reflexivity|].
    rewrite runHandler_mintBurn in Hrun by assumption. by simplify_eq.
Qed.

Lemma resolveAccount_transferResult env event st fa ta id :
  resolveAccount env id (transferResult env event st fa ta)
  = if decide (params_to event = id) then ta
    else if decide (params_from event = id) then fa
    else resolveAccount env id st.
Proof.
  unfold resolveAccount, transferResult. simpl.
  rewrite lookup_insert. case_decide; [reflexivity|].
  rewrite lookup_insert. case_decide; [reflexivity|].
  by rewrite !lookup_insert_ne by assumption.
Qed.

Lemma senderCopy_untouched env event a :
  txHash (senderCopy env event a) = Some (transaction_hash event)
  /\ receiveCount (senderCopy env event a) = receiveCount a
  /\ totalSpent (senderCopy env event a) = totalSpent a.
Proof. unfold senderCopy. by destruct (notMintOrBurn env event). Qed.

Lemma recipientCopy_txHash env event a :
  txHash (recipientCopy env event a) = Some (transaction_hash event).
Proof. unfold recipientCopy. by destruct (notMintOrBurn env event). Qed.

(** X5: a transfer between non-zero addresses that the handler completes
    leaves, under the id [txHash + "-" + logIndex], a Transfer row with the
    event's sender, recipient, token, log index, hash and value and the
    display string of the event's tag; every other Transfer row is as before. *)
Theorem transfer_row_saved (env : Env) (event : Event) (st st' : State) :
  params_from event <> ZERO_ADDRESS env ->
  params_to event <> ZERO_ADDRESS env ->
  runHandler env event st = Some st' ->
  transfers st' !! (transaction_hash event +:+ "-" +:+ BigInt_toHex env (logIndex event))
  = Some (mkTransfer (params_from event) (params_to event) (params_tokenId event)
                     (logIndex event) (transaction_hash event)
                     (transaction_value event)
                     (getMarketplaceName
                        (classifyMarketplace env (transaction_to event)
                                             (transaction_from event))))
  /\ forall id, id <> transferId env event -> transfers st' !! id = transfers st !! id.
Proof.
  intros Hf Ht Hrun.
  assert (Hz : notMintOrBurn env event = true)
    by (apply notMintOrBurn_true; split; assumption).
  apply runHandler_cases in Hrun as [[Hz' _]|[_ (fa & ta & _ & _ & ->)]];
    [congruence|].
  unfold transferResult. simpl. split.
  - apply lookup_insert_eq.
  - intros id Hid. by rewrite lookup_insert_ne.
Qed.

Lemma transfer_row_saved_witness :
  exists st',
    runHandler exampleEnv tradeEvent afterMint = Some st'
    /\ transfers st' !! "0xh1-0x3"
       = Some (mkTransfer "0xaa" "0xbb" 42 3 "0xh1" 5 "OpenSeaV1").
Proof.
  exists (default emptyState (runHandler exampleEnv tradeEvent afterMint)).
  split; [vm_compute; reflexivity|].
  apply (transfer_row_saved exampleEnv tradeEvent afterMint).
  - discriminate.
  - discriminate.
  - vm_compute. reflexivity.
Defined.

(** X6: an event touches no account but its sender's and its recipient's,
    which are both stored when the handler returns; no account is ever
    removed. *)
Theorem other_accounts_untouched (env : Env) (event : Event) (st st' : State) :
  runHandler env event st = Some st' ->
  (forall id, id <> params_from event -> id <> params_to event ->
              accounts st' !! id = accounts st !! id)
  /\ is_Some (accounts st' !! params_from event)
  /\ is_Some (accounts st' !! params_to event)
  /\ (forall id, is_Some (accounts st !! id) -> is_Some (accounts st' !! id)).
Proof.
  intros Hrun.
  assert (Hlook : forall id,
            accounts st' !! id =
            if decide (params_to event = id) then accounts st' !! id
            else if decide (params_from event = id) then accounts st' !! id
            else accounts st !! id).
  { intros id.
    apply runHandler_cases in Hrun as [[_ ->]|[_ (fa & ta & _ & _ & ->)]];
      unfold mintBurnResult, transferResult; simpl;
      repeat case_decide; try reflexivity;
      by rewrite !lookup_insert_ne by assumption. }
  assert (Hfrom : is_Some (accounts st' !! params_from event)).
  { apply runHandler_cases in Hrun as [[_ ->]|[_ (fa & ta & _ & _ & ->)]];
      unfold mintBurnResult, transferResult; simpl;
      (rewrite lookup_insert; case_decide; [eauto|]);
      rewrite lookup_insert_eq; eauto. }
  assert (Hto : is_Some (accounts st' !! params_to event)).
  { apply runHandler_cases in Hrun as [[_ ->]|[_ (fa & ta & _ & _ & ->)]];
      unfold mintBurnResult, transferResult; simpl;
      rewrite lookup_insert_eq; eauto. }
  split; [|split; [exact Hfrom|split; [exact Hto|]]].
  - intros id Hf Ht. rewrite Hlook.
    rewrite decide_False by congruence. by rewrite decide_False by congruence.
  - intros id Hid. rewrite Hlook. repeat case_decide; subst; assumption.
Qed.

Lemma other_accounts_untouched_witness :
  exists st',
    runHandler exampleEnv giftEvent afterTrade = Some st'
    /\ accounts st' !! "0x00" = accounts afterTrade !! "0x00"
    /\ is_Some (accounts st' !! "0x00").
Proof.
  exists (default emptyState (runHandler exampleEnv giftEvent afterTrade)).
  split; [vm_compute; reflexivity|].
  destruct (other_accounts_untouched exampleEnv giftEvent afterTrade
              (default emptyState (runHandler exampleEnv giftEvent afterTrade)))
    as (H1 & _ & _ & H4).
  - vm_compute. reflexivity.
  - split; [apply H1; discriminate|]. apply H4. vm_compute. eauto.
Defined.

Lemma upsertInteraction_persist key accountId tag m k r :
  m !! k = Some r ->
  exists r', upsertInteraction key accountId tag m !! k = Some r'
             /\ account r' = account r /\ marketplace r' = marketplace r
             /\ transactionCount r <= transactionCount r' <= transactionCount r + 1.
Proof.
  intros Hk. destruct (decide (key = k)) as [->|Hne].
  - rewrite upsertInteraction_lookup_eq, Hk. eexists. split; [reflexivity|].
    simpl. repeat split; lia.
  - rewrite upsertInteraction_lookup_ne by assumption.
    exists r. repeat split; [assumption|lia..].
Qed.

(** X7: an interaction row, once stored, is never removed and keeps its
    account and its marketplace; an event raises its transaction count by at
    most two and never lowers it, and leaves every row alone whose key is not
    the sender's or the recipient's key for the event's tag. *)
Theorem interaction_rows_persist (env : Env) (event : Event) (st st' : State) :
  runHandler env event st = Some st' ->
  (forall key r, interactions st !! key = Some r ->
     exists r', interactions st' !! key = Some r'
                /\ account r' = account r /\ marketplace r' = marketplace r
                /\ transactionCount r <= transactionCount r' <= transactionCount r + 2)
  /\ (forall key,
        key <> interactionKey env (params_from event) (eventTag env event) ->
        key <> interactionKey env (params_to event) (eventTag env event) ->
        interactions st' !! key = interactions st !! key).
Proof.
  intros Hrun.
  apply runHandler_cases in Hrun as [[_ ->]|[_ (fa & ta & _ & _ & ->)]].
  - unfold mintBurnResult. simpl. split; [|reflexivity].
    intros key r Hr. exists r. repeat split; [assumption|lia..].
  - unfold transferResult. simpl. split.
    + intros key r Hr.
      destruct (upsertInteraction_persist
                  (interactionKey env (params_from event) (eventTag env event))
                  (params_from event) (eventTag env event) _ _ _ Hr)
        as (r1 & Hr1 & Ha1 & Hm1 & Hc1).
      destruct (upsertInteraction_persist
                  (interactionKey env (params_to event) (eventTag env event))
                  (params_to event) (eventTag env event) _ _ _ Hr1)
        as (r2 & Hr2 & Ha2 & Hm2 & Hc2).
      exists r2. split; [exact Hr2|].
      split; [congruence|]. split; [congruence|lia].
    + intros key Hf Ht.
      by rewrite !upsertInteraction_lookup_ne by congruence.
Qed.

Lemma interaction_rows_persist_witness :
  exists st' r',
    runHandler exampleEnv giftEvent afterTrade = Some st'
    /\ interactions st' !! "0xaa-OpenSeaV1" = Some r'
    /\ account r' = "0xaa" /\ marketplace r' = "OpenSeaV1".
Proof.
  destruct (interaction_rows_persist exampleEnv giftEvent afterTrade
              (default emptyState (runHandler exampleEnv giftEvent afterTrade)))
    as (H1 & _).
  - vm_compute. reflexivity.
  - destruct (H1 "0xaa-OpenSeaV1" (mkInteraction "0xaa" "OpenSeaV1" 1))
      as (r' & Hr' & Ha & Hm & _).
    + vm_compute. reflexivity.
    + exists (default emptyState (runHandler exampleEnv giftEvent afterTrade)), r'.
      split; [vm_compute; reflexivity|]. split; [exact Hr'|]. by split.
Defined.

(** X8: on any event whose sender is not its recipient, mint and burn
    included, the stored sender has its send count raised by one and its
    receive count and total spent as loaded; the stored recipient has its
    receive count raised by one, the transaction's value added to its total
    spent and its send count as loaded; both carry the transaction's hash. *)
Theorem distinct_endpoints_counters (env : Env) (event : Event) (st st' : State) :
  params_from event <> params_to event ->
  runHandler env event st = Some st' ->
  exists fromAccount toAccount,
    accounts st' !! params_from event = Some fromAccount
    /\ accounts st' !! params_to event = Some toAccount
    /\ txHash fromAccount = Some (transaction_hash event)
    /\ txHash toAccount = Some (transaction_hash event)
    /\ sendCount fromAccount =
       Some (default 0 (sendCount (resolveAccount env (params_from event) st)) + 1)
    /\ receiveCount fromAccount =
       receiveCount (resolveAccount env (params_from event) st)
    /\ totalSpent fromAccount = totalSpent (resolveAccount env (params_from event) st)
    /\ receiveCount toAccount =
       Some (default 0 (receiveCount (resolveAccount env (params_to event) st)) + 1)
    /\ totalSpent toAccount =
       Some (default 0 (totalSpent (resolveAccount env (params_to event) st))
             + transaction_value event)
    /\ sendCount toAccount = sendCount (resolveAccount env (params_to event) st).
Proof.
  intros Hne Hrun.
  destruct (senderCopy_untouched env event
              (resolveAccount env (params_from event) st)) as (Hh & Hr & Hs).
  apply runHandler_cases in Hrun as [[_ ->]|[_ (fa & ta & Hfa & Hta & ->)]].
  - exists (senderCopy env event (resolveAccount env (params_from event) st)),
           (recipientCopy env event (resolveAccount env (params_to event) st)).
    unfold mintBurnResult. simpl.
    rewrite lookup_insert_ne, !lookup_insert_eq by congruence.
    rewrite senderCopy_sendCount, recipientCopy_receiveCount,
      recipientCopy_totalSpent, recipientCopy_sendCount, recipientCopy_txHash.
    repeat split; assumption.
  - exists fa, ta. unfold transferResult. simpl.
    rewrite lookup_insert_ne, !lookup_insert_eq by congruence.
    apply countMarketplace_fields in Hfa as (-> & -> & -> & -> & _).
    apply countMarketplace_fields in Hta as (-> & -> & -> & -> & _).
    rewrite senderCopy_sendCount, recipientCopy_receiveCount,
      recipientCopy_totalSpent, recipientCopy_sendCount, recipientCopy_txHash.
    repeat split; assumption.
Qed.

Lemma distinct_endpoints_counters_witness :
  exists fromAccount toAccount,
    accounts (default emptyState (runHandler exampleEnv tradeEvent afterMint)) !! "0xaa"
    = Some fromAccount
    /\ accounts (default emptyState (runHandler exampleEnv tradeEvent afterMint)) !! "0xbb"
       = Some toAccount
    /\ sendCount fromAccount = Some 1
    /\ receiveCount fromAccount = Some 1
    /\ receiveCount toAccount = Some 1
    /\ totalSpent toAccount = Some 5.
Proof.
  destruct (distinct_endpoints_counters exampleEnv tradeEvent afterMint
              (default emptyState (runHandler exampleEnv tradeEvent afterMint)))
    as (fa & ta & H1 & H2 & _ & _ & H5 & H6 & _ & H8 & H9 & _).
  - discriminate.
  - vm_compute. reflexivity.
  - exists fa, ta. repeat split; assumption.
Defined.

(** X9: for every account, stored or yet to be created, an event lowers
    neither the send count nor the receive count nor, when set, the counter of
    distinct marketplaces; it does not lower the total spent when the
    transaction's value is not negative.  An unset count reads as zero. *)
Theorem counters_never_decrease (env : Env) (event : Event) (st st' : State)
    (id : string) :
  runHandler env event st = Some st' ->
  default 0 (sendCount (resolveAccount env id st))
  <= default 0 (sendCount (resolveAccount env id st'))
  /\ default 0 (receiveCount (resolveAccount env id st))
     <= default 0 (receiveCount (resolveAccount env id st'))
  /\ (0 <= transaction_value event ->
      default 0 (totalSpent (resolveAccount env id st))
      <= default 0 (totalSpent (resolveAccount env id st')))
  /\ (forall c, uniqueMarketplacesCount (resolveAccount env id st) = Some c ->
      exists c', uniqueMarketplacesCount (resolveAccount env id st') = Some c'
                 /\ c <= c' <= c + 1).
Proof.
  intros Hrun.
  destruct (senderCopy_untouched env event (resolveAccount env id st))
    as (_ & Hsr & Hss).
  assert (Hcopies :
    forall a', a' = senderCopy env event (resolveAccount env id st)
               \/ a' = recipientCopy env event (resolveAccount env id st)
               \/ a' = resolveAccount env id st ->
      default 0 (sendCount (resolveAccount env id st)) <= default 0 (sendCount a')
      /\ default 0 (receiveCount (resolveAccount env id st))
         <= default 0 (receiveCount a')
      /\ (0 <= transaction_value event ->
          default 0 (totalSpent (resolveAccount env id st))
          <= default 0 (totalSpent a'))
      /\ uniqueMarketplacesCount a'
         = uniqueMarketplacesCount (resolveAccount env id st)).
  { intros a' [-> | [-> | ->]].
    - rewrite senderCopy_sendCount, Hsr, Hss, senderCopy_uniqueMarketplacesCount.
      simpl. repeat split; lia.
    - rewrite recipientCopy_sendCount, recipientCopy_receiveCount,
        recipientCopy_totalSpent, recipientCopy_uniqueMarketplacesCount.
      simpl. repeat split; lia.
    - repeat split; lia. }
  apply runHandler_cases in Hrun as [[_ ->]|[_ (fa & ta & Hfa & Hta & ->)]].
  - unfold mintBurnResult. rewrite resolveAccount_saved.
    destruct (Hcopies (if decide (params_to event = id)
                       then recipientCopy env event
                              (resolveAccount env (params_to event) st)
                       else if decide (params_from event = id)
                            then senderCopy env event
                                   (resolveAccount env (params_from event) st)
                            else resolveAccount env id st))
      as (H1 & H2 & H3 & H4).
    { repeat case_decide; subst; auto. }
    split; [exact H1|]. split; [exact H2|]. split; [exact H3|].
    intros c Hc. exists c. rewrite H4. split; [exact Hc|lia].
  - rewrite resolveAccount_transferResult.
    pose proof (countMarketplace_fields _ _ _ _ Hfa) as (_ & Fs & Fr & Ft & _).
    pose proof (countMarketplace_fields _ _ _ _ Hta) as (_ & Ts & Tr & Tt & _).
    apply countMarketplace_counter in Hfa, Hta.
    rewrite senderCopy_uniqueMarketplacesCount in Hfa.
    rewrite recipientCopy_uniqueMarketplacesCount in Hta.
    destruct (decide (params_to event = id)) as [<-|Hto];
      [|destruct (decide (params_from event = id)) as [<-|Hfrom]].
    + destruct (Hcopies (recipientCopy env event
                           (resolveAccount env (params_to event) st)))
        as (H1 & H2 & H3 & _); [auto|].
      rewrite Ts, Tr, Tt. split; [exact H1|]. split; [exact H2|].
      split; [exact H3|].
      intros c Hc. rewrite Hta, Hc.
      destruct (upsertInteraction _ _ _ _ !! _); simpl; eexists;
        (split; [reflexivity|lia]).
    + destruct (Hcopies (senderCopy env event
                           (resolveAccount env (params_from event) st)))
        as (H1 & H2 & H3 & _); [auto|].
      rewrite Fs, Fr, Ft. split; [exact H1|]. split; [exact H2|].
      split; [exact H3|].
      intros c Hc. rewrite Hfa, Hc.
      destruct (interactions st !! _); simpl; eexists;
        (split; [reflexivity|lia]).
    + split; [lia|]. split; [lia|]. split; [lia|].
      intros c Hc. exists c. split; [exact Hc|lia].
Qed.

Lemma counters_never_decrease_witness :
  default 0 (sendCount (resolveAccount exampleEnv "0xaa" afterMint))
  <= default 0 (sendCount
                  (resolveAccount exampleEnv "0xaa"
                     (default emptyState (runHandler exampleEnv selfEvent afterMint)))).
Proof.
  destruct (counters_never_decrease exampleEnv selfEvent afterMint
              (default emptyState (runHandler exampleEnv selfEvent afterMint)) "0xaa")
    as (H & _).
  - vm_compute. reflexivity.
  - exact H.
Defined.

(** ** The log *)

Lemma eventDiagnostics_run env event st st' :
  runHandler env event st = Some st' ->
  logs st' = (logs st ++ eventDiagnostics env event)%list.
Proof.
  intros Hrun. unfold eventDiagnostics.
  apply runHandler_cases in Hrun as [[Hz ->]|[Hz (fa & ta & _ & _ & ->)]];
    rewrite Hz; unfold mintBurnResult, transferResult; simpl;
    [reflexivity|by rewrite app_nil_r].
Qed.

(** X10: an event adds at most two lines to the log and changes none that
    was there.  The Unknown-marketplace line is added exactly when the tag is
    Unknown, the skip line exactly when the sender or the recipient is the
    zero address, the burn line only when the tag is not Unknown, and the
    unusual-activity line never. *)
Theorem handler_log_lines (env : Env) (event : Event) (st st' : State) :
  runHandler env event st = Some st' ->
  exists new,
    logs st' = (logs st ++ new)%list
    /\ (length new <= 2)%nat
    /\ (("Unknown MarketPlace: {}", [transaction_hash event]) ∈ new
        <-> classifyMarketplace env (transaction_to event) (transaction_from event)
            = Unknown)
    /\ (skipDiagnostic event ∈ new
        <-> params_from event = ZERO_ADDRESS env \/ params_to event = ZERO_ADDRESS env)
    /\ (forall entry, entry ∈ new -> fst entry = "NFT Burn detected: {}" ->
        classifyMarketplace env (transaction_to event) (transaction_from event)
        <> Unknown)
    /\ (forall entry, entry ∈ new -> fst entry <> "Unusual Activity: {}").
Proof.
  intros Hrun. exists (eventDiagnostics env event).
  split; [by apply eventDiagnostics_run|].
  rewrite <- notMintOrBurn_false.
  pose proof (unusual_activity_never_logged env event) as Hnever.
  fold (eventTag env event).
  unfold eventDiagnostics, skipDiagnostic in *.
  assert (Hshape :
    marketplaceDiagnostics env event
    = [("Unknown MarketPlace: {}", [transaction_hash event])]
      /\ eventTag env event = Unknown
    \/ marketplaceDiagnostics env event
       = [("NFT Burn detected: {}", [transaction_hash event])]
       /\ eventTag env event <> Unknown
    \/ marketplaceDiagnostics env event = [] /\ eventTag env event <> Unknown).
  { unfold marketplaceDiagnostics in *.
    destruct (decide (eventTag env event = Unknown)); [by left|].
    right. case_match; [by left|]. right.
    case_match; [|by split].
    exfalso. eapply Hnever; [apply list_elem_of_here|reflexivity]. }
  destruct (notMintOrBurn env event);
    destruct Hshape as [[-> Hk]|[[-> Hk]|[-> Hk]]]; simpl;
    (split; [lia|]);
    (split; [split; [intros Hin|intros Hu; try congruence;
                                 apply list_elem_of_here]|]);
    try (repeat (apply elem_of_cons in Hin as [Hin|Hin]; try discriminate Hin);
         first [ assumption | by apply elem_of_nil in Hin ]);
    (split; [split; [intros Hin|intros Hu; try discriminate Hu]|]);
    try (repeat (apply elem_of_cons in Hin as [Hin|Hin]; try discriminate Hin);
         first [ reflexivity | by apply elem_of_nil in Hin ]);
    try (apply list_elem_of_further, list_elem_of_here);
    try (apply list_elem_of_here);
    (split; intros entry Hin;
     repeat (apply elem_of_cons in Hin as [Hin|Hin]; [subst entry|]);
     try (by apply elem_of_nil in Hin);
     simpl; try discriminate; try (intros _; assumption); try (intros; discriminate)).
Qed.

Lemma handler_log_lines_witness :
  exists new,
    logs (default emptyState (runHandler exampleEnv burnEvent afterMint))
    = (logs afterMint ++ new)%list
    /\ (length new <= 2)%nat
    /\ skipDiagnostic burnEvent ∈ new.
Proof.
  destruct (handler_log_lines exampleEnv burnEvent afterMint
              (default emptyState (runHandler exampleEnv burnEvent afterMint)))
    as (new & H1 & H2 & _ & H4 & _).
  - vm_compute. reflexivity.
  - exists new. split; [exact H1|]. split; [exact H2|].
    apply H4. right. reflexivity.
Defined.

(** ** Delivering an event twice *)

Lemma upsertInteraction_is_Some key accountId tag m k :
  is_Some (upsertInteraction key accountId tag m !! k)
  <-> is_Some (m !! k) \/ k = key.
Proof.
  destruct (decide (key = k)) as [->|Hne].
  - rewrite upsertInteraction_lookup_eq. split; eauto.
  - rewrite upsertInteraction_lookup_ne by assumption.
    split; [eauto|]. intros [?|?]; [assumption|congruence].
Qed.

(** X11: an event the handler has completed once is completed again when it
    is delivered a second time.  The second run writes the Transfer row
    under the same id with the same content, creates no interaction row and
    changes no account's counter of distinct marketplaces, but it counts the
    event again: the recipient's receive count goes up by one more. *)
Theorem redelivery_counts_twice (env : Env) (event : Event) (st st1 : State) :
  runHandler env event st = Some st1 ->
  exists st2,
    runHandler env event st1 = Some st2
    /\ transfers st2 = transfers st1
    /\ (forall key, is_Some (interactions st2 !! key)
                    <-> is_Some (interactions st1 !! key))
    /\ (forall id, uniqueMarketplacesCount (resolveAccount env id st2)
                   = uniqueMarketplacesCount (resolveAccount env id st1))
    /\ receiveCount (resolveAccount env (params_to event) st2)
       = Some (default 0 (receiveCount (resolveAccount env (params_to event) st1)) + 1)
    /\ receiveCount (resolveAccount env (params_to event) st1)
       = Some (default 0 (receiveCount (resolveAccount env (params_to event) st)) + 1).
Proof.
  intros Hrun.
  apply runHandler_cases in Hrun as [[Hz ->]|[Hz (fa & ta & Hfa & Hta & ->)]].
  - exists (mintBurnResult env event (mintBurnResult env event st)).
    split; [by apply runHandler_mintBurn|].
    split; [reflexivity|]. split; [reflexivity|]. split; [|split].
    + intros id.
      unfold mintBurnResult at 1. rewrite resolveAccount_saved.
      repeat case_decide; subst;
        by rewrite ?senderCopy_uniqueMarketplacesCount,
             ?recipientCopy_uniqueMarketplacesCount.
    + unfold mintBurnResult at 1. rewrite resolveAccount_saved.
      rewrite decide_True by reflexivity. apply recipientCopy_receiveCount.
    + unfold mintBurnResult. rewrite resolveAccount_saved.
      rewrite decide_True by reflexivity. apply recipientCopy_receiveCount.
  - set (st1 := transferResult env event st fa ta).
    set (kf := interactionKey env (params_from event) (eventTag env event)).
    set (kt := interactionKey env (params_to event) (eventTag env event)).
    assert (Hkf : is_Some (interactions st1 !! kf)).
    { unfold st1, transferResult. simpl.
      apply upsertInteraction_is_Some. left.
      apply upsertInteraction_is_Some. by right. }
    assert (Hkt1 : is_Some (interactions st1 !! kt)).
    { unfold st1, transferResult. simpl.
      apply upsertInteraction_is_Some. by right. }
    assert (Hkt : is_Some (upsertInteraction kf (params_from event)
                             (eventTag env event) (interactions st1) !! kt)).
    { apply upsertInteraction_is_Some. by left. }
    destruct Hkf as [rf Hrf]. destruct Hkt as [rt Hrt].
    exists (transferResult env event st1
              (senderCopy env event (resolveAccount env (params_from event) st1))
              (recipientCopy env event (resolveAccount env (params_to event) st1))).
    split.
    { rewrite runHandler_transfer by assumption. cbv zeta. fold kf kt.
      rewrite (countMarketplace_existing _ _ _ _ Hrf).
      by rewrite (countMarketplace_existing _ _ _ _ Hrt). }
    split; [|split; [|split; [|split]]].
    + unfold transferResult at 1. simpl. unfold st1, transferResult. simpl.
      apply insert_insert_eq.
    + intros key. unfold st1, transferResult. simpl. fold kf kt.
      rewrite !upsertInteraction_is_Some. tauto.
    + intros id. rewrite resolveAccount_transferResult.
      repeat case_decide; subst;
        by rewrite ?senderCopy_uniqueMarketplacesCount,
             ?recipientCopy_uniqueMarketplacesCount.
    + rewrite resolveAccount_transferResult.
      rewrite decide_True by reflexivity. apply recipientCopy_receiveCount.
    + unfold st1. rewrite resolveAccount_transferResult.
      rewrite decide_True by reflexivity.
      apply countMarketplace_fields in Hta as (_ & _ & -> & _).
      apply recipientCopy_receiveCount.
Qed.

Lemma redelivery_counts_twice_witness :
  exists st2,
    runHandler exampleEnv tradeEvent
      (default emptyState (runHandler exampleEnv tradeEvent afterMint)) = Some st2
    /\ transfers st2
       = transfers (default emptyState (runHandler exampleEnv tradeEvent afterMint))
    /\ receiveCount (resolveAccount exampleEnv "0xbb" st2) = Some 2.
Proof.
  destruct (redelivery_counts_twice exampleEnv tradeEvent afterMint
              (default emptyState (runHandler exampleEnv tradeEvent afterMint)))
    as (st2 & H1 & H2 & _ & _ & H5 & _).
  - vm_compute. reflexivity.
  - exists st2. split; [exact H1|]. split; [exact H2|].
    change "0xbb" with (params_to tradeEvent). rewrite H5.
    vm_compute. reflexivity.
Defined.

(** ** Completion *)

Lemma countersSet_step env event st :
  countersSet env st ->
  exists st', runHandler env event st = Some st' /\ countersSet env st'.
Proof.
  intros Hset. destruct (notMintOrBurn env event) eqn:Hz.
  - destruct (runHandler_transfer_total env event st Hz)
      as (fa & ta & Hfa & Hta & Hrun); [apply Hset..|].
    exists (transferResult env event st fa ta). split; [exact Hrun|].
    apply countMarketplace_counter in Hfa, Hta.
    rewrite senderCopy_uniqueMarketplacesCount in Hfa.
    rewrite recipientCopy_uniqueMarketplacesCount in Hta.
    intros id. rewrite resolveAccount_transferResult.
    repeat case_decide; subst; [| |apply Hset].
    + rewrite Hta. destruct (Hset (params_to event)) as [c ->].
      destruct (upsertInteraction _ _ _ _ !! _); simpl; eauto.
    + rewrite Hfa. destruct (Hset (params_from event)) as [c ->].
      destruct (interactions st !! _); simpl; eauto.
  - exists (mintBurnResult env event st).
    split; [by apply runHandler_mintBurn|].
    intros id. unfold mintBurnResult. rewrite resolveAccount_saved.
    repeat case_decide; subst;
      rewrite ?senderCopy_uniqueMarketplacesCount,
        ?recipientCopy_uniqueMarketplacesCount; apply Hset.
Qed.

Lemma senderCopy_initialised env event a :
  accountInitialised a -> accountInitialised (senderCopy env event a).
Proof.
  intros (Hs & Hr & Ht & Hn & Hu). unfold accountInitialised.
  destruct (senderCopy_untouched env event a) as (_ & -> & ->).
  rewrite senderCopy_sendCount, senderCopy_uniqueMarketplacesCount.
  repeat split; eauto.
  destruct (notMintOrBurn env event) eqn:Hz.
  - rewrite senderCopy_nftCount_transfer by assumption.
    destruct (nftCount a); eauto.
  - by rewrite senderCopy_nftCount_mintBurn.
Qed.

Lemma recipientCopy_initialised env event a :
  accountInitialised a -> accountInitialised (recipientCopy env event a).
Proof.
  intros (Hs & Hr & Ht & Hn & Hu). unfold accountInitialised.
  rewrite recipientCopy_sendCount, recipientCopy_receiveCount,
    recipientCopy_totalSpent, recipientCopy_uniqueMarketplacesCount.
  repeat split; eauto.
  destruct (notMintOrBurn env event) eqn:Hz.
  - rewrite recipientCopy_nftCount_transfer by assumption. eauto.
  - by rewrite recipientCopy_nftCount_mintBurn.
Qed.

Lemma countMarketplace_initialised key m a a' :
  countMarketplace key m a = Some a' ->
  accountInitialised a -> accountInitialised a'.
Proof.
  intros Hc (Hs & Hr & Ht & Hn & [c Hu]). unfold accountInitialised.
  pose proof (countMarketplace_fields _ _ _ _ Hc) as (_ & -> & -> & -> & ->).
  apply countMarketplace_counter in Hc. rewrite Hc, Hu.
  repeat split; try assumption. destruct (m !! key); simpl; eauto.
Qed.

Lemma storeInitialised_step env event st :
  storeInitialised env st ->
  exists st', runHandler env event st = Some st' /\ storeInitialised env st'.
Proof.
  intros Hinit.
  assert (Hset : countersSet env st) by (intros id; apply Hinit).
  destruct (countersSet_step env event st Hset) as (st' & Hrun & _).
  exists st'. split; [exact Hrun|].
  apply runHandler_cases in Hrun as [[_ ->]|[_ (fa & ta & Hfa & Hta & ->)]].
  - intros id. unfold mintBurnResult. rewrite resolveAccount_saved.
    repeat case_decide; subst;
      [apply recipientCopy_initialised|apply senderCopy_initialised|];
      apply Hinit.
  - intros id. rewrite resolveAccount_transferResult.
    repeat case_decide; subst; [| |apply Hinit].
    + apply (countMarketplace_initialised _ _ _ _ Hta).
      apply recipientCopy_initialised, Hinit.
    + apply (countMarketplace_initialised _ _ _ _ Hfa).
      apply senderCopy_initialised, Hinit.
Qed.

(** X13: from a store in which every account, stored or yet to be created,
    has its five counters set, the handler completes every event of every
    sequence, self-transfers included, and the five counters of every account
    stay set. *)
Theorem runEvents_total (env : Env) (events : list Event) (st : State) :
  storeInitialised env st ->
  exists st', runEvents env events st = Some st' /\ storeInitialised env st'.
Proof.
  revert st. induction events as [|event rest IH]; intros st Hinit.
  - exists st. by split.
  - destruct (storeInitialised_step env event st Hinit) as (st1 & Hrun1 & Hinit1).
    destruct (IH st1 Hinit1) as (st' & Hrun & Hinit').
    exists st'. split; [|exact Hinit']. simpl. by rewrite Hrun1.
Qed.

Lemma runEvents_total_witness :
  exists st',
    runEvents ordinalEnv [mintEvent; selfEvent; giftEvent; selfGiftEvent; burnEvent]
              emptyState = Some st'
    /\ storeInitialised ordinalEnv st'.
Proof.
  apply runEvents_total. intros id. vm_compute. repeat split; eauto.
Defined.

(** ** Stores built from the empty store *)

Lemma accounts_persist env event st st' id :
  runHandler env event st = Some st' ->
  is_Some (accounts st !! id) \/ id = params_from event \/ id = params_to event ->
  is_Some (accounts st' !! id).
Proof.
  intros Hrun Hid.
  apply runHandler_cases in Hrun as [[_ ->]|[_ (fa & ta & _ & _ & ->)]];
    unfold mintBurnResult, transferResult; simpl;
    repeat (rewrite lookup_insert; case_decide; [eauto|]);
    destruct Hid as [?|[?|?]]; [assumption|congruence..].
Qed.

Lemma upsertInteraction_ind (P : string -> MarketplaceInteraction -> Prop)
    key accountId tag m :
  (forall k r, m !! k = Some r -> P k r) ->
  P key (mkInteraction accountId (getMarketplaceName tag) 1) ->
  (forall r, P key r ->
             P key (mkInteraction (account r) (marketplace r) (transactionCount r + 1))) ->
  forall k r, upsertInteraction key accountId tag m !! k = Some r -> P k r.
Proof.
  intros Hold Hnew Hinc k r.
  destruct (decide (key = k)) as [<-|Hne].
  - rewrite upsertInteraction_lookup_eq. intros [= <-].
    destruct (m !! key) as [r0|] eqn:Hr0; [|exact Hnew].
    apply Hinc. by apply Hold.
  - rewrite upsertInteraction_lookup_ne by assumption. apply Hold.
Qed.

Lemma rowsWellFormed_step env event st st' :
  runHandler env event st = Some st' ->
  rowsWellFormed env st -> rowsWellFormed env st'.
Proof.
  intros Hrun Hwf.
  assert (Hold : forall k r, interactions st !! k = Some r ->
            1 <= transactionCount r
            /\ is_Some (accounts st' !! account r)
            /\ exists tag, k = interactionKey env (account r) tag
                           /\ marketplace r = getMarketplaceName tag).
  { intros k r Hr. destruct (Hwf k r Hr) as (Hc & Ha & Ht).
    split; [exact Hc|]. split; [|exact Ht].
    apply (accounts_persist env event st); auto. }
  assert (Hf : is_Some (accounts st' !! params_from event))
    by (apply (accounts_persist env event st); auto).
  assert (Ht : is_Some (accounts st' !! params_to event))
    by (apply (accounts_persist env event st); auto).
  pose (P := fun (k : string) (r : MarketplaceInteraction) =>
               1 <= transactionCount r
               /\ is_Some (accounts st' !! account r)
               /\ exists tag, k = interactionKey env (account r) tag
                              /\ marketplace r = getMarketplaceName tag).
  pose proof Hrun as Hcases.
  apply runHandler_cases in Hcases as [[_ Hst]|[_ (fa & ta & _ & _ & Hst)]].
  - assert (Hint : interactions st' = interactions st) by (by rewrite Hst).
    intros k r. rewrite Hint. apply Hold.
  - assert (Hint : interactions st' =
              upsertInteraction
                (interactionKey env (params_to event) (eventTag env event))
                (params_to event) (eventTag env event)
                (upsertInteraction
                   (interactionKey env (params_from event) (eventTag env event))
                   (params_from event) (eventTag env event) (interactions st)))
      by (by rewrite Hst).
    intros k r. rewrite Hint.
    apply (upsertInteraction_ind P).
    + apply (upsertInteraction_ind P); [exact Hold| |].
      * unfold P. simpl. split; [lia|]. split; [exact Hf|]. by eexists.
      * unfold P. simpl. intros r0 (Hc & Ha & Hk). split; [lia|]. by split.
    + unfold P. simpl. split; [lia|]. split; [exact Ht|]. by eexists.
    + unfold P. simpl. intros r0 (Hc & Ha & Hk). split; [lia|]. by split.
Qed.

Lemma transfersWellFormed_step env event st st' :
  runHandler env event st = Some st' ->
  transfersWellFormed st -> transfersWellFormed st'.
Proof.
  intros Hrun Hwf.
  assert (Hold : forall id t, transfers st !! id = Some t ->
            is_Some (accounts st' !! transfer_from t)
            /\ is_Some (accounts st' !! transfer_to t)
            /\ exists tag, transfer_marketplace t = getMarketplaceName tag).
  { intros id t Hid. destruct (Hwf id t Hid) as (Hf & Ht & Hm).
    split; [|split; [|exact Hm]]; apply (accounts_persist env event st); auto. }
  assert (Hf : is_Some (accounts st' !! params_from event))
    by (apply (accounts_persist env event st); auto).
  assert (Ht : is_Some (accounts st' !! params_to event))
    by (apply (accounts_persist env event st); auto).
  pose proof Hrun as Hcases.
  apply runHandler_cases in Hcases as [[_ Hst]|[_ (fa & ta & _ & _ & Hst)]].
  - assert (Htr : transfers st' = transfers st) by (by rewrite Hst).
    intros id t. rewrite Htr. apply Hold.
  - assert (Htr : transfers st' =
              <[transferId env event :=
                  mkTransfer (params_from event) (params_to event)
                             (params_tokenId event) (logIndex event)
                             (transaction_hash event) (transaction_value event)
                             (getMarketplaceName (eventTag env event))]>
                (transfers st))
      by (by rewrite Hst).
    intros id t. rewrite Htr.
    rewrite lookup_insert. case_decide; [|apply Hold].
    intros [= <-]. simpl. split; [exact Hf|]. split; [exact Ht|]. by eexists.
Qed.

(** X14: in every store the handler builds from the empty store, each
    interaction row sits under the key of its account and of a tag, carries
    that tag's display string, counts at least one transaction and refers to a
    stored account; each Transfer row refers to two stored accounts and
    carries the display string of a tag. *)
Theorem stores_well_formed (env : Env) (events : list Event) (st : State) :
  runEvents env events emptyState = Some st ->
  (forall key r, interactions st !! key = Some r ->
     1 <= transactionCount r
     /\ is_Some (accounts st !! account r)
     /\ exists tag, key = account r +:+ "-" +:+ Marketplace_toString env tag
                    /\ marketplace r = getMarketplaceName tag)
  /\ (forall id t, transfers st !! id = Some t ->
        is_Some (accounts st !! transfer_from t)
        /\ is_Some (accounts st !! transfer_to t)
        /\ exists tag, transfer_marketplace t = getMarketplaceName tag).
Proof.
  change (runEvents env events emptyState = Some st ->
          rowsWellFormed env st /\ transfersWellFormed st).
  assert (Hinit : rowsWellFormed env emptyState /\ transfersWellFormed emptyState).
  { split; intros k r Hr; simpl in Hr; by rewrite lookup_empty in Hr. }
  revert Hinit. generalize emptyState as st0.
  induction events as [|event rest IH]; intros st0 [Hrows Htrs] Hrun.
  - simpl in Hrun. by simplify_eq.
  - simpl in Hrun. destruct (runHandler env event st0) as [st1|] eqn:H1;
      [|discriminate].
    apply (IH st1); [|exact Hrun]. split.
    + by apply (rowsWellFormed_step env event st0).
    + by apply (transfersWellFormed_step env event st0).
Qed.

Lemma stores_well_formed_witness :
  1 <= transactionCount (mkInteraction "0xbb" "CryptoCoven" 1)
  /\ is_Some (accounts afterGift !! "0xbb")
  /\ exists tag, "0xbb-CryptoCoven" = "0xbb" +:+ "-" +:+ getMarketplaceName tag
                 /\ "CryptoCoven" = getMarketplaceName tag.
Proof.
  destruct (stores_well_formed exampleEnv [mintEvent; giftEvent] afterGift)
    as (Hrows & _).
  - vm_compute. reflexivity.
  - apply (Hrows "0xbb-CryptoCoven" (mkInteraction "0xbb" "CryptoCoven" 1)).
    vm_compute. reflexivity.
Defined.

Lemma ownedIn_upsert_ge id key accountId tag m :
  (ownedIn id m <= ownedIn id (upsertInteraction key accountId tag m))%nat.
Proof.
  rewrite ownedIn_upsert. destruct (m !! key); [lia|]. case_decide; lia.
Qed.

Lemma countsBounded_step env event st :
  countsBounded env st ->
  exists st', runHandler env event st = Some st' /\ countsBounded env st'.
Proof.
  intros Hb.
  assert (Hset : countersSet env st).
  { intros id. destruct (Hb id) as (c & Hc & _). eauto. }
  destruct (notMintOrBurn env event) eqn:Hz.
  - destruct (runHandler_transfer_total env event st Hz)
      as (fa & ta & Hfa & Hta & Hrun); [apply Hset..|].
    exists (transferResult env event st fa ta). split; [exact Hrun|].
    apply countMarketplace_counter in Hfa, Hta.
    rewrite senderCopy_uniqueMarketplacesCount in Hfa.
    rewrite recipientCopy_uniqueMarketplacesCount in Hta.
    set (kf := interactionKey env (params_from event) (eventTag env event)) in *.
    set (kt := interactionKey env (params_to event) (eventTag env event)) in *.
    set (m1 := upsertInteraction kf (params_from event) (eventTag env event)
                                 (interactions st)) in *.
    intros id. rewrite resolveAccount_transferResult.
    assert (Hown : ownedInteractions id (transferResult env event st fa ta)
                   = ownedIn id (upsertInteraction kt (params_to event)
                                                   (eventTag env event) m1))
      by reflexivity.
    rewrite Hown. clear Hown.
    pose proof (ownedIn_upsert_ge id kf (params_from event) (eventTag env event)
                  (interactions st)) as Hge1.
    pose proof (ownedIn_upsert_ge id kt (params_to event) (eventTag env event) m1)
      as Hge2.
    fold m1 in Hge1.
    destruct (Hb id) as (c & Hc & Hc0 & Hc1). unfold ownedInteractions in Hc1.
    destruct (decide (params_to event = id)) as [<-|Hto];
      [|destruct (decide (params_from event = id)) as [<-|Hfrom]].
    + rewrite Hta, Hc. rewrite ownedIn_upsert.
      destruct (m1 !! kt); simpl; eexists; (split; [reflexivity|]).
      * lia.
      * rewrite decide_True by reflexivity. lia.
    + rewrite Hfa, Hc.
      assert (Hf1 : match interactions st !! kf with
                    | Some _ => ownedIn (params_from event) (interactions st)
                    | None => S (ownedIn (params_from event) (interactions st))
                    end = ownedIn (params_from event) m1).
      { unfold m1. rewrite ownedIn_upsert.
        destruct (interactions st !! kf); [reflexivity|].
        by rewrite decide_True by reflexivity. }
      destruct (interactions st !! kf); simpl; eexists;
        (split; [reflexivity|lia]).
    + exists c. split; [exact Hc|lia].
  - exists (mintBurnResult env event st).
    split; [by apply runHandler_mintBurn|].
    intros id. unfold mintBurnResult. rewrite resolveAccount_saved.
    assert (Hown : forall a b c,
              ownedInteractions id (mkState a (interactions st) b c)
              = ownedInteractions id st) by reflexivity.
    rewrite Hown.
    repeat case_decide; subst;
      rewrite ?senderCopy_uniqueMarketplacesCount,
        ?recipientCopy_uniqueMarketplacesCount; apply Hb.
Qed.

Lemma size_list_to_set_le (l : list string) :
  (size (list_to_set l : gset string) <= length l)%nat.
Proof.
  induction l as [|x l IH].
  - rewrite list_to_set_nil, size_empty. reflexivity.
  - rewrite list_to_set_cons, size_union_alt, size_singleton. simpl.
    assert (Hsub : (list_to_set l : gset string) ∖ {[x]} ⊆ list_to_set l).
    { intros y Hy. by apply elem_of_difference in Hy as [Hy _]. }
    apply subseteq_size in Hsub. lia.
Qed.

(** The rows of one account sit under at most as many keys as there are
    tags. *)
Lemma ownedInteractions_le_tags env st id :
  rowsWellFormed env st ->
  (ownedInteractions id st <= length allTags)%nat.
Proof.
  intros Hwf. unfold ownedInteractions, ownedIn.
  rewrite <- (size_dom (D := gset string)).
  transitivity (size (list_to_set (interactionKey env id <$> allTags) : gset string)).
  - apply subseteq_size. intros k Hk.
    apply elem_of_dom in Hk as [r Hr].
    apply map_lookup_filter_Some in Hr as [Hr Hacc]. simpl in Hacc.
    destruct (Hwf k r Hr) as (_ & _ & tag & -> & _).
    apply elem_of_list_to_set, list_elem_of_fmap.
    exists tag. split; [by rewrite Hacc|].
    destruct tag; unfold allTags;
      repeat (first [ by apply list_elem_of_here | apply list_elem_of_further ]).
  - etransitivity; [apply size_list_to_set_le|]. by rewrite length_fmap.
Qed.

(** X15: with created accounts starting their counter of distinct
    marketplaces at zero, every store the handler builds from the empty store
    has each account's counter set, not negative and at most the number of
    interaction rows that refer to the account, and that number is at most
    thirteen, the number of tags. *)
Theorem counters_bounded_by_rows (env : Env) (events : list Event) (st : State) :
  (forall id, uniqueMarketplacesCount (newAccount env id) = Some 0) ->
  runEvents env events emptyState = Some st ->
  forall id a, accounts st !! id = Some a ->
    exists c, uniqueMarketplacesCount a = Some c
              /\ 0 <= c <= Z.of_nat (ownedInteractions id st)
              /\ (ownedInteractions id st <= 13)%nat.
Proof.
  intros Hnew Hrun.
  assert (Hinit : countsBounded env emptyState /\ rowsWellFormed env emptyState).
  { split.
    - intros id. exists 0. split; [|lia].
      unfold resolveAccount. simpl. rewrite lookup_empty. apply Hnew.
    - intros k r Hr. simpl in Hr. by rewrite lookup_empty in Hr. }
  assert (Hfinal : countsBounded env st /\ rowsWellFormed env st).
  { revert Hinit Hrun. generalize emptyState as st0.
    induction events as [|event rest IH]; intros st0 [Hb Hwf] Hrun.
    - simpl in Hrun. by simplify_eq.
    - simpl in Hrun.
      destruct (runHandler env event st0) as [st1|] eqn:H1; [|discriminate].
      apply (IH st1); [|exact Hrun]. split.
      + apply (runHandler_step_inv (countsBounded env) env event st0); [|exact H1].
        by apply countsBounded_step.
      + by apply (rowsWellFormed_step env event st0). }
  destruct Hfinal as [Hb Hwf].
  intros id a Ha. destruct (Hb id) as (c & Hc & Hrange).
  unfold resolveAccount in Hc. rewrite Ha in Hc. simpl in Hc.
  exists c. split; [exact Hc|]. split; [exact Hrange|].
  apply (ownedInteractions_le_tags env st id Hwf).
Qed.

Lemma counters_bounded_by_rows_witness :
  exists c,
    uniqueMarketplacesCount <$> accounts busyStore !! "0xaa" = Some (Some c)
    /\ 0 <= c <= Z.of_nat (ownedInteractions "0xaa" busyStore)
    /\ (ownedInteractions "0xaa" busyStore <= 13)%nat.
Proof.
  destruct (accounts busyStore !! "0xaa") as [a|] eqn:Ha;
    [|vm_compute in Ha; discriminate].
  destruct (counters_bounded_by_rows ordinalEnv
              [mintEvent; selfEvent; giftEvent; selfGiftEvent] busyStore)
    with (id := "0xaa") (a := a) as (c & Hc & Hrange & Hle).
  - reflexivity.
  - vm_compute. reflexivity.
  - exact Ha.
  - exists c. simpl. rewrite Hc.
    split; [reflexivity|]. split; [exact Hrange|exact Hle].
Defined.
